(** * Bank accounts and the Bank registry of [OOP_1.py]

    A shallow embedding of the account classes ([BankAccount],
    [SavingsAccount], [CurrentAccount], [FixedDepositAccount]) and of the
    [Bank] registry, followed by the properties of their balance rules.

    Conventions of the embedding.
    - Amounts, balances, overdraft limits and interest rates are Python
      floats, that is IEEE-754 binary64 numbers: [balance] defaults to [0.0],
      every amount is printed with the float format [.2f], and
      [interest_rate / 100] is a true division.  They are Rocq's primitive
      floats, whose operations are the binary64 ones.  The integer literals of
      the demo program denote the floats of the same value.
    - A method mutates its receiver: it maps the receiver before the call to
      the receiver after the call, paired with [Return v] when the call
      returns [v] and with [Raise e] when it raises [e].
    - [print] only formats floats and strings; it cannot raise and touches no
      attribute, so it is left out.
    - [datetime.now()] is an argument [now] of the methods that read the
      clock.  A [datetime] is the count of microseconds (its resolution)
      since [datetime.min], the first instant of year 1; [datetime.max], the
      last microsecond of year 9999, is [datetime_max].  [timedelta(days=d)],
      for an integer [d], is [d] days of 86 400 000 000 microseconds and
      raises OverflowError beyond 999 999 999 days; adding a [timedelta] to a
      [datetime] raises OverflowError when the sum leaves the range of
      [datetime].  The message of an OverflowError depends on the
      interpreter and is not kept.
    - The objects a [Bank] holds live in its dictionary: the dictionary is the
      store, and an account number is the reference to the object stored
      under it.  [add_account] stores an object under its own number only, so
      two numbers never lead to one object. *)

From Stdlib Require Import ZArith QArith Qabs Floats String List Lia.
From stdpp Require Import gmap strings.

#[local] Set Warnings "-inexact-float".

Local Open Scope Z_scope.

(** ** Floats *)

(** The rational number a finite float stands for ([0] for an infinity or a
    NaN; every float it is applied to below is finite). *)
Definition SF_exact (x : spec_float) : Q :=
  match x with
  | S754_finite s m e => (inject_Z (cond_Zopp s (Z.pos m)) * Qpower 2 e)%Q
  | _ => 0%Q
  end.

Definition exact (x : float) : Q := SF_exact (Prim2SF x).

(** ** Exceptions *)

Inductive exn : Type :=
| ValueError (msg : string)
| OverflowError.

Inductive result (A : Type) : Type :=
| Return (a : A)
| Raise (e : exn).

Arguments Return {A} a.
Arguments Raise {A} e.

(** The failure kinds of the specification are names for the [ValueError]s
    the code raises. *)
Definition InvalidAmount_deposit : exn :=
  ValueError "Deposit amount must be positive.".
Definition InvalidAmount_withdraw : exn :=
  ValueError "Withdrawal amount must be positive.".
Definition InsufficientFunds : exn :=
  ValueError "Insufficient funds.".
Definition OverdraftExceeded : exn :=
  ValueError "Exceeds overdraft limit.".
Definition LockPeriodActive : exn :=
  ValueError "Withdrawal not allowed before lock-in period ends.".
Definition DuplicateAccount : exn :=
  ValueError "Account with this number already exists.".
Definition AccountNotFound : exn :=
  ValueError "One or both accounts not found.".

(** ** class BankAccount *)

Record BankAccount : Type := {
  account_number : string;
  account_holder : string;
  balance : float
}.

(** [self.balance = b] *)
Definition set_balance (self : BankAccount) (b : float) : BankAccount :=
  {| account_number := account_number self;
     account_holder := account_holder self;
     balance := b |}.

Definition BankAccount_deposit (self : BankAccount) (amount : float)
  : BankAccount * result unit :=
  if (amount <=? 0)%float then
    (self, Raise (ValueError "Deposit amount must be positive."))
  else
    (set_balance self (balance self + amount)%float, Return tt).

Definition BankAccount_withdraw (self : BankAccount) (amount : float)
  : BankAccount * result unit :=
  if (amount <=? 0)%float then
    (self, Raise (ValueError "Withdrawal amount must be positive."))
  else if (balance self <? amount)%float then
    (self, Raise (ValueError "Insufficient funds."))
  else
    (set_balance self (balance self - amount)%float, Return tt).

Definition get_balance (self : BankAccount) : float := balance self.

(** ** class SavingsAccount(BankAccount) *)

Record SavingsAccount : Type := {
  savings_base : BankAccount;
  interest_rate : float            (* in percentage *)
}.

Definition SavingsAccount_apply_interest (self : SavingsAccount)
  : SavingsAccount * result unit :=
  let interest :=
    (balance (savings_base self) * (interest_rate self / 100))%float in
  ({| savings_base :=
        set_balance (savings_base self)
                    (balance (savings_base self) + interest)%float;
      interest_rate := interest_rate self |},
   Return tt).

(** ** class CurrentAccount(BankAccount) *)

Record CurrentAccount : Type := {
  current_base : BankAccount;
  overdraft_limit : float
}.

Definition CurrentAccount_withdraw (self : CurrentAccount) (amount : float)
  : CurrentAccount * result unit :=
  if (amount <=? 0)%float then
    (self, Raise (ValueError "Withdrawal amount must be positive."))
  else if (balance (current_base self) + overdraft_limit self <? amount)%float
  then
    (self, Raise (ValueError "Exceeds overdraft limit."))
  else
    ({| current_base :=
          set_balance (current_base self)
                      (balance (current_base self) - amount)%float;
        overdraft_limit := overdraft_limit self |},
     Return tt).

(** ** class FixedDepositAccount(BankAccount) *)

Record FixedDepositAccount : Type := {
  fixed_base : BankAccount;
  lock_period_days : Z;
  creation_date : Z                (* microseconds *)
}.

(** [datetime.max - datetime.min], in microseconds: 3 652 059 days less one
    microsecond. *)
Definition datetime_max : Z := 3652059 * 86400000000 - 1.

(** [timedelta(days=d)], in microseconds. *)
Definition timedelta_days (d : Z) : result Z :=
  if 999999999 <? Z.abs d then Raise OverflowError
  else Return (d * 86400000000).

(** [t + delta] for a [datetime] [t] and a [timedelta] [delta]. *)
Definition datetime_add (t delta : Z) : result Z :=
  if (t + delta <? 0) || (datetime_max <? t + delta) then Raise OverflowError
  else Return (t + delta).

(** [self.creation_date + timedelta(days=self.lock_period_days)] *)
Definition unlock_date (self : FixedDepositAccount) : result Z :=
  match timedelta_days (lock_period_days self) with
  | Return delta => datetime_add (creation_date self) delta
  | Raise e => Raise e
  end.

Definition FixedDepositAccount_withdraw (now : Z)
    (self : FixedDepositAccount) (amount : float)
  : FixedDepositAccount * result unit :=
  let current_date := now in
  match unlock_date self with
  | Raise e => (self, Raise e)
  | Return unlock =>
      if current_date <? unlock then
        (self,
         Raise (ValueError
                  "Withdrawal not allowed before lock-in period ends."))
      else
        (* super().withdraw(amount) *)
        let (base', r) := BankAccount_withdraw (fixed_base self) amount in
        ({| fixed_base := base';
            lock_period_days := lock_period_days self;
            creation_date := creation_date self |}, r)
  end.

(** ** Account objects and method resolution *)

(** An account object is an instance of one of the four classes. *)
Inductive account : Type :=
| Basic (a : BankAccount)
| Savings (a : SavingsAccount)
| Current (a : CurrentAccount)
| Fixed (a : FixedDepositAccount).

(** The inherited [BankAccount] part of an object. *)
Definition base (a : account) : BankAccount :=
  match a with
  | Basic b => b
  | Savings s => savings_base s
  | Current c => current_base c
  | Fixed f => fixed_base f
  end.

Definition with_base (a : account) (b : BankAccount) : account :=
  match a with
  | Basic _ => Basic b
  | Savings s =>
      Savings {| savings_base := b; interest_rate := interest_rate s |}
  | Current c =>
      Current {| current_base := b; overdraft_limit := overdraft_limit c |}
  | Fixed f =>
      Fixed {| fixed_base := b; lock_period_days := lock_period_days f;
               creation_date := creation_date f |}
  end.

Definition on_fst {A B R : Type} (f : A -> B) (p : A * R) : B * R :=
  (f (fst p), snd p).

(** [a.deposit(amount)]: no subclass overrides [deposit]. *)
Definition deposit (a : account) (amount : float) : account * result unit :=
  on_fst (with_base a) (BankAccount_deposit (base a) amount).

(** [a.withdraw(amount)]: [CurrentAccount] and [FixedDepositAccount]
    override [withdraw], [SavingsAccount] inherits it. *)
Definition withdraw (now : Z) (a : account) (amount : float)
  : account * result unit :=
  match a with
  | Basic b => on_fst Basic (BankAccount_withdraw b amount)
  | Savings s =>
      on_fst (with_base a) (BankAccount_withdraw (savings_base s) amount)
  | Current c => on_fst Current (CurrentAccount_withdraw c amount)
  | Fixed f => on_fst Fixed (FixedDepositAccount_withdraw now f amount)
  end.

(** The receiver after a withdrawal of [amount] that went through. *)
Definition debited (a : account) (amount : float) : account :=
  with_base a (set_balance (base a) (balance (base a) - amount)%float).

(** The receiver after a deposit of [amount] that went through. *)
Definition credited (a : account) (amount : float) : account :=
  with_base a (set_balance (base a) (balance (base a) + amount)%float).

(** ** class Bank *)

Record Bank : Type := {
  accounts : gmap string account
}.

(** [Bank()] *)
Definition Bank_init : Bank := {| accounts := ∅ |}.

(** The bank whose object under [number] has become [a]. *)
Definition store (self : Bank) (number : string) (a : account) : Bank :=
  {| accounts := <[number := a]> (accounts self) |}.

Definition add_account (self : Bank) (a : account) : Bank * result unit :=
  match accounts self !! account_number (base a) with
  | Some _ =>
      (self, Raise (ValueError "Account with this number already exists."))
  | None => (store self (account_number (base a)) a, Return tt)
  end.

Definition get_account (self : Bank) (account_number : string)
  : option account :=
  accounts self !! account_number.

(** [from_account] and [to_account] are the objects stored under the two
    numbers; they are one and the same object when the numbers are equal, and
    then [to_account.deposit] starts from the balance that
    [from_account.withdraw] left. *)
Definition transfer_funds (now : Z) (self : Bank)
    (from_account_number to_account_number : string) (amount : float)
  : Bank * result unit :=
  match get_account self from_account_number,
        get_account self to_account_number with
  | Some from_account, Some to_account =>
      let (from_account', r) := withdraw now from_account amount in
      let self' := store self from_account_number from_account' in
      match r with
      | Raise e => (self', Raise e)
      | Return _ =>
          let to_account :=
            if decide (to_account_number = from_account_number)
            then from_account' else to_account in
          let (to_account', r') := deposit to_account amount in
          (store self' to_account_number to_account', r')
      end
  | _, _ => (self, Raise (ValueError "One or both accounts not found."))
  end.

(** A sequence of [add_account] calls, the caller catching whatever a call
    raises. *)
Definition add_accounts (self : Bank) (l : list account) : Bank :=
  fold_left (fun bank a => fst (add_account bank a)) l self.

(** The balance of the account registered under a number. *)
Definition balance_of (self : Bank) (account_number : string)
  : option float :=
  option_map (fun a => balance (base a)) (get_account self account_number).

(** No two registered objects carry the same account number. *)
Definition ids_unique (self : Bank) : Prop :=
  forall k1 k2 a1 a2,
    get_account self k1 = Some a1 -> get_account self k2 = Some a2 ->
    account_number (base a1) = account_number (base a2) -> k1 = k2.

(** Every object is registered under its own account number. *)
Definition keyed_by_number (self : Bank) : Prop :=
  forall k a, get_account self k = Some a -> account_number (base a) = k.

(** [a.account_number == k] *)
Definition has_number (k : string) (a : account) : bool :=
  String.eqb (account_number (base a)) k.

(** ** The demo program *)

Definition savings : SavingsAccount :=
  {| savings_base := {| account_number := "S1001"; account_holder := "Alice";
                        balance := 1000 |};
     interest_rate := 3.5 |}.

Definition current : CurrentAccount :=
  {| current_base := {| account_number := "C1001"; account_holder := "Bob";
                        balance := 200 |};
     overdraft_limit := 500 |}.

Definition fixed (now : Z) : FixedDepositAccount :=
  {| fixed_base := {| account_number := "F1001"; account_holder := "Charlie";
                      balance := 5000 |};
     lock_period_days := 30;
     creation_date := now |}.

Definition my_bank (now : Z) : Bank :=
  add_accounts Bank_init [Savings savings; Current current; Fixed (fixed now)].

(** [savings.deposit(500); savings.apply_interest(); savings.withdraw(200)] *)
Definition savings_operations (now : Z) : account :=
  let s1 := fst (deposit (Savings savings) 500) in
  let s2 := match s1 with
            | Savings s => Savings (fst (SavingsAccount_apply_interest s))
            | other => other
            end in
  fst (withdraw now s2 200).

(** [current.withdraw(600); current.deposit(300)] *)
Definition current_operations (now : Z) : account :=
  let c1 := fst (withdraw now (Current current) 600) in
  fst (deposit c1 300).

(** The bank when the demo reaches its transfer. *)
Definition my_bank_before_transfer (now : Z) : Bank :=
  store (store (my_bank now) "S1001" (savings_operations now))
        "C1001" (current_operations now).

(** ** Further accounts used below *)

(** The account of ten quadrillion on which a deposit of 1 is lost. *)
Definition big_account : account :=
  Basic {| account_number := "B1"; account_holder := "Dana";
           balance := 1e16 |}.

(** A basic account opened with a negative balance. *)
Definition overdrawn_account : BankAccount :=
  {| account_number := "B2"; account_holder := "Erin"; balance := -5 |}.

(** A current account of 0.10 with an overdraft limit of 0.20. *)
Definition tenth_current : CurrentAccount :=
  {| current_base := {| account_number := "C2"; account_holder := "Kofi";
                        balance := 0.1 |};
     overdraft_limit := 0.2 |}.

(** A savings account of 100.10 at 5 percent. *)
Definition small_savings : SavingsAccount :=
  {| savings_base := {| account_number := "S2"; account_holder := "Farid";
                        balance := 100.1 |};
     interest_rate := 5 |}.

(** Two accounts of 1000 and of 0.10, and one of 0.45. *)
Definition thousand : account :=
  Basic {| account_number := "A"; account_holder := "Gita";
           balance := 1000 |}.

Definition dime : account :=
  Basic {| account_number := "B"; account_holder := "Hugo";
           balance := 0.1 |}.

Definition forty_five : account :=
  Basic {| account_number := "C"; account_holder := "Ines";
           balance := 0.45 |}.

Definition small_bank : Bank :=
  add_accounts Bank_init [thousand; dime; forty_five].

(** ** Constructors *)

(** [BankAccount(account_number, account_holder, balance=0.0)]: an omitted
    [balance] is [None]. *)
Definition BankAccount_init (account_number account_holder : string)
    (balance : option float) : BankAccount :=
  {| account_number := account_number;
     account_holder := account_holder;
     balance := match balance with Some b => b | None => 0%float end |}.

Definition SavingsAccount_init (account_number account_holder : string)
    (interest_rate : float) (balance : option float) : SavingsAccount :=
  {| savings_base := BankAccount_init account_number account_holder balance;
     interest_rate := interest_rate |}.

Definition CurrentAccount_init (account_number account_holder : string)
    (overdraft_limit : float) (balance : option float) : CurrentAccount :=
  {| current_base := BankAccount_init account_number account_holder balance;
     overdraft_limit := overdraft_limit |}.

(** [self.creation_date = datetime.now()] *)
Definition FixedDepositAccount_init (now : Z)
    (account_number account_holder : string) (lock_period_days : Z)
    (balance : option float) : FixedDepositAccount :=
  {| fixed_base := BankAccount_init account_number account_holder balance;
     lock_period_days := lock_period_days;
     creation_date := now |}.

(** ** Predicates on accounts and banks *)

(** [a'] is [a] with, possibly, another balance: same class, number, holder,
    rate, limit, lock period and creation date. *)
Definition same_but_balance (a a' : account) : Prop :=
  a' = with_base a (set_balance (base a) (balance (base a'))).

(** The classes whose [withdraw] checks the amount against the balance
    alone: every class but [CurrentAccount]. *)
Definition no_overdraft (a : account) : bool :=
  match a with
  | Current _ => false
  | _ => true
  end.

(** No account without an overdraft facility has a negative balance. *)
Definition no_negative_balance (self : Bank) : Prop :=
  forall k a, get_account self k = Some a -> no_overdraft a = true ->
    (0 <=? balance (base a))%float = true.

(** The lock of a fixed deposit, if [a] is one, has expired at [now]: its
    unlock date is a [datetime], not later than [now]. *)
Definition unlocked (now : Z) (a : account) : Prop :=
  forall f, a = Fixed f -> exists u, unlock_date f = Return u /\ u <= now.

(** A fixed deposit created on 1 January 2024 and locked for 4 000 000
    days: its unlock date lies beyond year 9999. *)
Definition far_fixed : FixedDepositAccount :=
  {| fixed_base := {| account_number := "F2"; account_holder := "Pia";
                      balance := 5000 |};
     lock_period_days := 4000000;
     creation_date := 738885 * 86400000000 |}.

(** A fixed deposit of ten quadrillion without lock period. *)
Definition big_fixed : FixedDepositAccount :=
  {| fixed_base := {| account_number := "F3"; account_holder := "Quinn";
                      balance := 1e16 |};
     lock_period_days := 0;
     creation_date := 0 |}.

(** An account of 10 and an account of ten quadrillion, in one bank. *)
Definition ten : account :=
  Basic {| account_number := "P"; account_holder := "Rosa"; balance := 10 |}.

Definition quadrillions : account :=
  Basic {| account_number := "Q"; account_holder := "Sven";
           balance := 1e16 |}.

Definition rounding_bank : Bank :=
  add_accounts Bank_init [ten; quadrillions].

(** An account whose balance has become a NaN. *)
Definition poisoned : account :=
  Basic {| account_number := "N1"; account_holder := "Lena";
           balance := nan |}.

(** The shapes of a binary64 number that is [>= 0]: a zero, a positive
    finite number, the positive infinity. *)
Definition SF_nonneg (x : spec_float) : bool :=
  match x with
  | S754_zero _ | S754_infinity false | S754_finite false _ _ => true
  | _ => false
  end.

(** * Properties *)

(** ** The unlock date of a fixed deposit *)

(** The unlock date is a [datetime] exactly when the lock period is a
    [timedelta] and the sum lies between [datetime.min] and
    [datetime.max]. *)
Lemma unlock_date_Return (self : FixedDepositAccount) (u : Z) :
  unlock_date self = Return u <->
  Z.abs (lock_period_days self) <= 999999999
  /\ 0 <= creation_date self + lock_period_days self * 86400000000
       <= datetime_max
  /\ u = creation_date self + lock_period_days self * 86400000000.
Proof.
  unfold unlock_date, timedelta_days, datetime_add.
  destruct (Z.ltb_spec 999999999 (Z.abs (lock_period_days self))) as [Hd|Hd].
  - split; [discriminate|]. intros (H & _). lia.
  - set (r := creation_date self + lock_period_days self * 86400000000).
    destruct (Z.ltb_spec r 0) as [H0|H0]; simpl.
    + split; [discriminate|]. intros (_ & H & _). lia.
    + destruct (Z.ltb_spec datetime_max r) as [H1|H1].
      * split; [discriminate|]. intros (_ & H & _). lia.
      * split; [intros [= <-]; lia | intros (_ & _ & ->); reflexivity].
Qed.

Lemma unlock_date_Raise (self : FixedDepositAccount) (e : exn) :
  unlock_date self = Raise e -> e = OverflowError.
Proof.
  unfold unlock_date, timedelta_days, datetime_add.
  destruct (_ <? Z.abs _); [now intros [= <-]|].
  destruct (_ || _); [now intros [= <-]|discriminate].
Qed.

Lemma FixedDepositAccount_withdraw_overflow (now : Z)
    (self : FixedDepositAccount) (amount : float) (e : exn) :
  unlock_date self = Raise e ->
  FixedDepositAccount_withdraw now self amount = (self, Raise e).
Proof. intros H. unfold FixedDepositAccount_withdraw. now rewrite H. Qed.

Lemma FixedDepositAccount_withdraw_locked (now : Z)
    (self : FixedDepositAccount) (amount : float) (u : Z) :
  unlock_date self = Return u -> now < u ->
  FixedDepositAccount_withdraw now self amount
    = (self, Raise LockPeriodActive).
Proof.
  intros H Hlt. apply Z.ltb_lt in Hlt.
  unfold FixedDepositAccount_withdraw. now rewrite H, Hlt.
Qed.

Lemma FixedDepositAccount_withdraw_unlocked (now : Z)
    (self : FixedDepositAccount) (amount : float) (u : Z) :
  unlock_date self = Return u -> u <= now ->
  FixedDepositAccount_withdraw now self amount
    = on_fst (fun b => {| fixed_base := b;
                          lock_period_days := lock_period_days self;
                          creation_date := creation_date self |})
             (BankAccount_withdraw (fixed_base self) amount).
Proof.
  intros H Hle. apply Z.ltb_ge in Hle.
  unfold FixedDepositAccount_withdraw. rewrite H, Hle.
  now destruct (BankAccount_withdraw (fixed_base self) amount).
Qed.

(** ** The demo program's figures *)

(** The run of the demo: 1000 + 500 = 1500, interest at 3.5 percent gives
    1552.5, less 200 gives 1352.5; 200 - 600 = -400, plus 300 gives -100; the
    fixed deposit refuses the early withdrawal; the transfer of 300 leaves
    1052.5 and 200. *)
Lemma demo_figures (now : Z) :
  0 <= now -> now + 30 * 86400000000 <= datetime_max ->
  balance (base (savings_operations now)) = 1352.5%float /\
  balance (base (current_operations now)) = (-100)%float /\
  FixedDepositAccount_withdraw now (fixed now) 1000
    = (fixed now, Raise LockPeriodActive) /\
  snd (transfer_funds now (my_bank_before_transfer now) "S1001" "C1001" 300)
    = Return tt /\
  balance_of (fst (transfer_funds now (my_bank_before_transfer now)
                                  "S1001" "C1001" 300)) "S1001"
    = Some 1052.5%float /\
  balance_of (fst (transfer_funds now (my_bank_before_transfer now)
                                  "S1001" "C1001" 300)) "C1001"
    = Some 200%float.
Proof.
  intros H0 H1.
  split; [reflexivity|]. split; [reflexivity|]. split.
  - apply (FixedDepositAccount_withdraw_locked _ _ _ (now + 30 * 86400000000));
      [|lia].
    apply unlock_date_Return. simpl. lia.
  - repeat split; reflexivity.
Qed.

(** ** The order of floats *)

Lemma SFcompare_antisym (x y : spec_float) :
  SFcompare y x = option_map CompOpp (SFcompare x y).
Proof.
  destruct x as [sx|sx| |sx mx ex], y as [sy|sy| |sy my ey]; simpl;
    try reflexivity;
    try (destruct sx; reflexivity); try (destruct sy; reflexivity);
    try (destruct sx, sy; reflexivity).
  destruct sx, sy; simpl; try reflexivity;
    rewrite (Z.compare_antisym ex ey); destruct (ex ?= ey); simpl;
    try reflexivity;
    change Eq with (CompOpp Eq) at 1;
    rewrite <- (Pos.compare_cont_antisym mx my Eq); reflexivity.
Qed.

Lemma float_lt_not_le (x y : float) :
  (x <? y)%float = true -> (y <=? x)%float = false.
Proof.
  rewrite ltb_spec, leb_spec. unfold SFltb, SFleb.
  rewrite (SFcompare_antisym (Prim2SF x) (Prim2SF y)).
  destruct (SFcompare (Prim2SF x) (Prim2SF y)) as [[]|]; simpl; congruence.
Qed.

Lemma float_le_not_lt (x y : float) :
  (x <=? y)%float = true -> (y <? x)%float = false.
Proof.
  rewrite ltb_spec, leb_spec. unfold SFltb, SFleb.
  rewrite (SFcompare_antisym (Prim2SF x) (Prim2SF y)).
  destruct (SFcompare (Prim2SF x) (Prim2SF y)) as [[]|]; simpl; congruence.
Qed.

(** An amount above a balance that is not negative is positive. *)
Lemma float_above_nonneg (b a : float) :
  (0 <=? b)%float = true -> (b <? a)%float = true ->
  (a <=? 0)%float = false.
Proof.
  rewrite !leb_spec, ltb_spec. change (Prim2SF 0) with (S754_zero false).
  unfold SFleb, SFltb.
  destruct (Prim2SF b) as [sb|sb| |sb mb eb], (Prim2SF a) as [sa|sa| |sa ma ea];
    simpl; try discriminate; try reflexivity;
    try (destruct sb; discriminate); try (destruct sa; discriminate);
    try (destruct sa; reflexivity);
    try (destruct sb, sa; discriminate || reflexivity).
Qed.

(** Two floats differ when their binary64 representations do. *)
Ltac floats_differ :=
  let H := fresh in
  intros H; apply (f_equal Prim2SF) in H; vm_compute in H; discriminate H.

(** Two rationals given by closed terms differ. *)
Ltac rationals_differ := vm_compute; discriminate.

(** ** Objects and their [BankAccount] part *)

Lemma with_base_base (a : account) : with_base a (base a) = a.
Proof. destruct a as [b|[]|[]|[]]; reflexivity. Qed.

Lemma base_with_base (a : account) (b : BankAccount) :
  base (with_base a b) = b.
Proof. destruct a; reflexivity. Qed.

(** ** deposit *)

Lemma deposit_cases (a : account) (amount : float) :
  deposit a amount =
    if (amount <=? 0)%float then (a, Raise InvalidAmount_deposit)
    else (credited a amount, Return tt).
Proof.
  unfold deposit, BankAccount_deposit, on_fst, credited.
  destruct (amount <=? 0)%float; simpl; [|reflexivity].
  now rewrite with_base_base.
Qed.

(** C4, as stated, fails: a deposit of [1] on a balance of [1e16] returns
    normally and leaves the balance at [1e16], a whole unit away from the
    decimal sum [old + amount]. *)
Lemma deposit_drift_counterexample :
  (0 <? 1)%float = true /\
  deposit big_account 1 = (big_account, Return tt) /\
  ~ (Qabs (exact (balance (base (fst (deposit big_account 1))))
           - (exact (balance (base big_account)) + exact 1)) < 1 # 100)%Q.
Proof.
  split; [reflexivity|]. split; [reflexivity|].
  vm_compute. intros H. discriminate H.
Qed.

(** C4, amended: for every account of any class, [deposit(amount)] with
    [amount <= 0] raises InvalidAmount and leaves the account as it was; with
    [amount > 0] it returns normally and the new balance is the float sum
    [balance + amount] (rounded to the nearest double, as every float
    operation is), the rest of the object being untouched. *)
Theorem deposit_spec (a : account) (amount : float) :
  ((amount <=? 0)%float = true ->
     deposit a amount = (a, Raise InvalidAmount_deposit)) /\
  ((0 <? amount)%float = true ->
     deposit a amount = (credited a amount, Return tt) /\
     balance (base (fst (deposit a amount)))
       = (balance (base a) + amount)%float).
Proof.
  rewrite deposit_cases. split.
  - intros ->. reflexivity.
  - intros H. rewrite (float_lt_not_le _ _ H). split; [reflexivity|].
    simpl. unfold credited. now rewrite base_with_base.
Qed.

(** The demo's [savings.deposit(500)], and a deposit of [-5] refused. *)
Lemma deposit_spec_witness :
  deposit (Savings savings) (-5)
    = (Savings savings, Raise InvalidAmount_deposit) /\
  deposit (Savings savings) 500
    = (credited (Savings savings) 500, Return tt) /\
  balance (base (fst (deposit (Savings savings) 500))) = 1500%float.
Proof.
  split.
  - apply (proj1 (deposit_spec (Savings savings) (-5))). reflexivity.
  - apply (proj2 (deposit_spec (Savings savings) 500)). reflexivity.
Defined.

(** ** withdraw *)

Lemma BankAccount_withdraw_cases (self : BankAccount) (amount : float) :
  BankAccount_withdraw self amount =
    if (amount <=? 0)%float then (self, Raise InvalidAmount_withdraw)
    else if (balance self <? amount)%float then (self, Raise InsufficientFunds)
    else (set_balance self (balance self - amount)%float, Return tt).
Proof. reflexivity. Qed.

(** C5, as stated, fails: on a balance of [-5] the amount [-1] exceeds the
    balance, yet [withdraw(-1)] raises InvalidAmount ("Withdrawal amount must
    be positive."), not InsufficientFunds: the test [amount <= 0] comes
    first.  Nor is the balance always decreased by exactly the amount: on a
    balance of [1e16], [withdraw(1)] returns normally and leaves [1e16]. *)
Lemma withdraw_above_balance_counterexample :
  ((balance overdrawn_account <? -1)%float = true /\
   BankAccount_withdraw overdrawn_account (-1)
     = (overdrawn_account, Raise InvalidAmount_withdraw) /\
   InvalidAmount_withdraw <> InsufficientFunds) /\
  ((0 <? 1)%float = true /\
   (1 <=? balance (base big_account))%float = true /\
   withdraw 0 big_account 1 = (big_account, Return tt)).
Proof.
  split.
  - split; [reflexivity|]. split; [reflexivity|]. discriminate.
  - repeat split.
Qed.

(** C5, amended: for every BankAccount or SavingsAccount, [withdraw(amount)]
    with [amount <= 0] raises InvalidAmount first, whatever the balance, also
    when the amount exceeds a negative balance; with [amount > 0] and
    [amount > balance] it raises InsufficientFunds; either way the account is
    left as it was.  With [0 < amount <= balance] it returns normally and the
    balance becomes the float difference [balance - amount], the rest of the
    object being untouched. *)
Theorem basic_savings_withdraw_spec (now : Z) (a : account) (amount : float) :
  (exists b, a = Basic b) \/ (exists s, a = Savings s) ->
  ((amount <=? 0)%float = true ->
     withdraw now a amount = (a, Raise InvalidAmount_withdraw)) /\
  ((0 <? amount)%float = true -> (balance (base a) <? amount)%float = true ->
     withdraw now a amount = (a, Raise InsufficientFunds)) /\
  ((0 <? amount)%float = true -> (amount <=? balance (base a))%float = true ->
     withdraw now a amount = (debited a amount, Return tt) /\
     balance (base (fst (withdraw now a amount)))
       = (balance (base a) - amount)%float).
Proof.
  intros Hcls.
  assert (Hw : withdraw now a amount
               = on_fst (with_base a) (BankAccount_withdraw (base a) amount))
    by (destruct Hcls as [[b ->]|[s ->]]; reflexivity).
  rewrite Hw, BankAccount_withdraw_cases. unfold on_fst, debited.
  split; [|split].
  - intros ->. simpl. now rewrite with_base_base.
  - intros Hpos Hgt. rewrite (float_lt_not_le _ _ Hpos), Hgt. simpl.
    now rewrite with_base_base.
  - intros Hpos Hle.
    rewrite (float_lt_not_le _ _ Hpos), (float_le_not_lt _ _ Hle). simpl.
    split; [reflexivity|]. now rewrite base_with_base.
Qed.

(** On the demo's savings account of 1000: -1 and 2000 are refused, 200 is
    paid. *)
Lemma basic_savings_withdraw_spec_witness :
  withdraw 0 (Savings savings) (-1)
    = (Savings savings, Raise InvalidAmount_withdraw) /\
  withdraw 0 (Savings savings) 2000
    = (Savings savings, Raise InsufficientFunds) /\
  withdraw 0 (Savings savings) 200
    = (debited (Savings savings) 200, Return tt) /\
  balance (base (fst (withdraw 0 (Savings savings) 200))) = 800%float.
Proof.
  assert (Hcls : (exists b, Savings savings = Basic b)
                 \/ (exists s, Savings savings = Savings s))
    by (right; exists savings; reflexivity).
  split; [|split].
  - apply (proj1 (basic_savings_withdraw_spec 0 (Savings savings) (-1) Hcls)).
    reflexivity.
  - apply (proj1 (proj2 (basic_savings_withdraw_spec 0 (Savings savings) 2000
                           Hcls))); reflexivity.
  - apply (proj2 (proj2 (basic_savings_withdraw_spec 0 (Savings savings) 200
                           Hcls))); reflexivity.
Defined.

Lemma CurrentAccount_withdraw_cases (self : CurrentAccount) (amount : float) :
  CurrentAccount_withdraw self amount =
    if (amount <=? 0)%float then (self, Raise InvalidAmount_withdraw)
    else if (balance (current_base self) + overdraft_limit self <? amount)%float
    then (self, Raise OverdraftExceeded)
    else ({| current_base :=
               set_balance (current_base self)
                           (balance (current_base self) - amount)%float;
             overdraft_limit := overdraft_limit self |}, Return tt).
Proof. reflexivity. Qed.

(** C3, as stated, fails: the demo's current account (balance 200, overdraft
    limit 500) refuses [withdraw(0)] with InvalidAmount although
    [0 <= balance + overdraft_limit].  Nor does the balance stop at
    [-overdraft_limit]: with a balance of 0.1 and a limit of 0.2 the float sum
    [balance + overdraft_limit] is 0.30000000000000004, a withdrawal of that
    amount goes through and leaves -0.20000000000000004. *)
Lemma current_withdraw_zero_counterexample :
  ((0 <=? balance (current_base current) + overdraft_limit current)%float
     = true /\
   CurrentAccount_withdraw current 0
     = (current, Raise InvalidAmount_withdraw)) /\
  ((0.30000000000000004
      <=? balance (current_base tenth_current)
          + overdraft_limit tenth_current)%float = true /\
   snd (CurrentAccount_withdraw tenth_current 0.30000000000000004)
     = Return tt /\
   balance (current_base
              (fst (CurrentAccount_withdraw tenth_current
                                            0.30000000000000004)))
     = (-0.20000000000000004)%float /\
   (-0.20000000000000004 <? - overdraft_limit tenth_current)%float = true).
Proof. repeat split. Qed.

(** C3, amended: for every CurrentAccount, [withdraw(amount)] with
    [amount <= 0] raises InvalidAmount first, whatever the balance and the
    limit, and leaves the account as it was; with
    [0 < amount <= balance + overdraft_limit] it returns normally and the
    balance becomes the float difference [balance - amount], negative or not;
    with [amount > 0] and [amount > balance + overdraft_limit] it raises
    OverdraftExceeded and leaves the account as it was.  [balance +
    overdraft_limit] is the float sum the code compares with. *)
Theorem current_withdraw_spec (now : Z) (self : CurrentAccount)
    (amount : float) :
  ((amount <=? 0)%float = true ->
     CurrentAccount_withdraw self amount
       = (self, Raise InvalidAmount_withdraw)) /\
  ((0 <? amount)%float = true ->
   (amount <=? balance (current_base self) + overdraft_limit self)%float
     = true ->
     snd (CurrentAccount_withdraw self amount) = Return tt /\
     balance (current_base (fst (CurrentAccount_withdraw self amount)))
       = (balance (current_base self) - amount)%float /\
     overdraft_limit (fst (CurrentAccount_withdraw self amount))
       = overdraft_limit self /\
     withdraw now (Current self) amount
       = (debited (Current self) amount, Return tt)) /\
  ((0 <? amount)%float = true ->
   (balance (current_base self) + overdraft_limit self <? amount)%float
     = true ->
     CurrentAccount_withdraw self amount = (self, Raise OverdraftExceeded)).
Proof.
  unfold withdraw. rewrite CurrentAccount_withdraw_cases. split; [|split].
  - now intros ->.
  - intros Hpos Hle.
    rewrite (float_lt_not_le _ _ Hpos), (float_le_not_lt _ _ Hle).
    repeat split.
  - intros Hpos Hgt. now rewrite (float_lt_not_le _ _ Hpos), Hgt.
Qed.

(** On the demo's current account: -100 is refused as an invalid amount,
    [withdraw(600)] drives the balance to [-400], and 701 is more than the
    overdraft allows. *)
Lemma current_withdraw_spec_witness :
  CurrentAccount_withdraw current (-100)
    = (current, Raise InvalidAmount_withdraw) /\
  snd (CurrentAccount_withdraw current 600) = Return tt /\
  balance (current_base (fst (CurrentAccount_withdraw current 600)))
    = (-400)%float /\
  CurrentAccount_withdraw current 701 = (current, Raise OverdraftExceeded).
Proof.
  split.
  { apply (proj1 (current_withdraw_spec 0 current (-100))). reflexivity. }
  destruct (proj1 (proj2 (current_withdraw_spec 0 current 600)))
    as (Hr & Hb & _); [reflexivity | reflexivity |].
  split; [exact Hr|]. split; [exact Hb|].
  apply (proj2 (proj2 (current_withdraw_spec 0 current 701))); reflexivity.
Defined.

(** ** FixedDepositAccount.withdraw *)

(** C2, as stated, fails.  A fixed deposit created on 1 January 2024 with a
    lock period of 4 000 000 days is asked for 1000 at its creation, long
    before [creation_date + lock_period_days]; the call raises OverflowError,
    not LockPeriodActive, because that instant lies beyond year 9999.  And a
    fixed deposit of [1e16] whose lock has expired pays [withdraw(1)] without
    its balance decreasing by the amount: the balance stays [1e16]. *)
Lemma fixed_deposit_withdraw_counterexample :
  (creation_date far_fixed
     < creation_date far_fixed + lock_period_days far_fixed * 86400000000 /\
   FixedDepositAccount_withdraw (creation_date far_fixed) far_fixed 1000
     = (far_fixed, Raise OverflowError) /\
   OverflowError <> LockPeriodActive) /\
  (unlock_date big_fixed = Return 0 /\
   (0 <? 1)%float = true /\
   (1 <=? balance (fixed_base big_fixed))%float = true /\
   FixedDepositAccount_withdraw 0 big_fixed 1 = (big_fixed, Return tt)).
Proof.
  split.
  - split; [reflexivity|]. split; [reflexivity|discriminate].
  - repeat split.
Qed.

(** C2, amended: for every FixedDepositAccount whose unlock date
    [creation_date + timedelta(days=lock_period_days)] is a [datetime] (the
    lock period is within 999 999 999 days either way and the sum lies in
    years 1 to 9999), [withdraw(amount)] at a time strictly before that date
    raises LockPeriodActive whatever the amount and the balance, and leaves
    the account as it was; at or after that date it does what
    [BankAccount.withdraw] does on the inherited part: InvalidAmount for
    [amount <= 0]; otherwise InsufficientFunds for [amount > balance];
    otherwise it returns normally and the balance becomes the float
    difference [balance - amount].  In particular, on a balance that is not
    negative every [amount > balance] raises InsufficientFunds.  When the
    unlock date is not a [datetime], [withdraw] raises OverflowError at any
    time, whatever the amount, and leaves the account as it was. *)
Theorem fixed_deposit_withdraw_spec (now : Z) (self : FixedDepositAccount)
    (amount : float) :
  (forall u,
     unlock_date self = Return u <->
     Z.abs (lock_period_days self) <= 999999999
     /\ 0 <= creation_date self + lock_period_days self * 86400000000
          <= datetime_max
     /\ u = creation_date self + lock_period_days self * 86400000000) /\
  (forall u, unlock_date self = Return u -> now < u ->
     FixedDepositAccount_withdraw now self amount
       = (self, Raise LockPeriodActive)) /\
  (forall u, unlock_date self = Return u -> u <= now ->
     FixedDepositAccount_withdraw now self amount
       = on_fst (fun b => {| fixed_base := b;
                             lock_period_days := lock_period_days self;
                             creation_date := creation_date self |})
                (BankAccount_withdraw (fixed_base self) amount) /\
     ((amount <=? 0)%float = true ->
        FixedDepositAccount_withdraw now self amount
          = (self, Raise InvalidAmount_withdraw)) /\
     ((amount <=? 0)%float = false ->
      (balance (fixed_base self) <? amount)%float = true ->
        FixedDepositAccount_withdraw now self amount
          = (self, Raise InsufficientFunds)) /\
     ((0 <=? balance (fixed_base self))%float = true ->
      (balance (fixed_base self) <? amount)%float = true ->
        FixedDepositAccount_withdraw now self amount
          = (self, Raise InsufficientFunds)) /\
     ((amount <=? 0)%float = false ->
      (balance (fixed_base self) <? amount)%float = false ->
        snd (FixedDepositAccount_withdraw now self amount) = Return tt /\
        balance (fixed_base (fst (FixedDepositAccount_withdraw now self amount)))
          = (balance (fixed_base self) - amount)%float /\
        fst (FixedDepositAccount_withdraw now self amount)
          = {| fixed_base :=
                 set_balance (fixed_base self)
                             (balance (fixed_base self) - amount)%float;
               lock_period_days := lock_period_days self;
               creation_date := creation_date self |})) /\
  ((forall u, unlock_date self <> Return u) ->
     FixedDepositAccount_withdraw now self amount
       = (self, Raise OverflowError)).
Proof.
  split; [intros u; apply unlock_date_Return|]. split; [|split].
  - intros u Hu Hlt. now apply (FixedDepositAccount_withdraw_locked _ _ _ u).
  - intros u Hu Hge.
    rewrite (FixedDepositAccount_withdraw_unlocked _ _ _ u Hu Hge).
    split; [reflexivity|].
    rewrite BankAccount_withdraw_cases. unfold on_fst.
    destruct self as [b d c]; simpl. split; [|split; [|split]].
    + intros ->. reflexivity.
    + intros -> ->. reflexivity.
    + intros Hb Ha. now rewrite (float_above_nonneg _ _ Hb Ha), Ha.
    + intros -> ->. repeat split.
  - intros Hnone. destruct (unlock_date self) as [u|e] eqn:Hu.
    + now destruct (Hnone u).
    + rewrite (unlock_date_Raise _ _ Hu) in Hu.
      now apply FixedDepositAccount_withdraw_overflow.
Qed.

(** The demo's [fixed.withdraw(1000)], attempted at once, is refused; thirty
    days later to the microsecond it is paid; and the deposit locked for
    4 000 000 days raises OverflowError. *)
Lemma fixed_deposit_withdraw_spec_witness :
  FixedDepositAccount_withdraw 0 (fixed 0) 1000
    = (fixed 0, Raise LockPeriodActive) /\
  snd (FixedDepositAccount_withdraw 2592000000000 (fixed 0) 1000)
    = Return tt /\
  balance (fixed_base
             (fst (FixedDepositAccount_withdraw 2592000000000 (fixed 0) 1000)))
    = 4000%float /\
  FixedDepositAccount_withdraw 0 far_fixed 1000
    = (far_fixed, Raise OverflowError).
Proof.
  split; [|split; [|split]].
  - apply (proj1 (proj2 (fixed_deposit_withdraw_spec 0 (fixed 0) 1000))
             2592000000000); [reflexivity|lia].
  - destruct (proj1 (proj2 (proj2
               (fixed_deposit_withdraw_spec 2592000000000 (fixed 0) 1000)))
               2592000000000) as (_ & _ & _ & _ & H);
      [reflexivity | lia |].
    apply H; reflexivity.
  - destruct (proj1 (proj2 (proj2
               (fixed_deposit_withdraw_spec 2592000000000 (fixed 0) 1000)))
               2592000000000) as (_ & _ & _ & _ & H);
      [reflexivity | lia |].
    apply H; reflexivity.
  - apply (proj2 (proj2 (proj2 (fixed_deposit_withdraw_spec 0 far_fixed
                                                           1000)))).
    intros u Hu. discriminate Hu.
Defined.

(** ** SavingsAccount.apply_interest *)

(** C8, as stated, fails: on a balance of 100.1 at 5 percent the interest
    added is not [balance * rate / 100] and the new balance,
    105.10499999999999, is not [balance * (1 + rate / 100)]; this is so
    whether the products are taken exactly or in float arithmetic. *)
Lemma apply_interest_counterexample :
  let self' := fst (SavingsAccount_apply_interest small_savings) in
  balance (savings_base self') = 105.10499999999999%float /\
  ~ (exact (balance (savings_base self')) - exact 100.1
     == exact 100.1 * exact 5 / 100)%Q /\
  ~ (exact (balance (savings_base self'))
     == exact 100.1 * (1 + exact 5 / 100))%Q /\
  (balance (savings_base self') - 100.1)%float <> (100.1 * 5 / 100)%float /\
  balance (savings_base self') <> (100.1 * (1 + 5 / 100))%float.
Proof.
  cbv zeta. split; [reflexivity|].
  split; [rationals_differ|]. split; [rationals_differ|].
  split; floats_differ.
Qed.

(** C8, amended: for every SavingsAccount, [apply_interest()] never raises;
    it computes the interest as the float product
    [balance * (interest_rate / 100)] of the balance before the call and adds
    it to the balance in float arithmetic, each operation rounded to the
    nearest double; nothing else of the account changes. *)
Theorem apply_interest_spec (self : SavingsAccount) :
  snd (SavingsAccount_apply_interest self) = Return tt /\
  balance (savings_base (fst (SavingsAccount_apply_interest self)))
    = (balance (savings_base self)
       + balance (savings_base self) * (interest_rate self / 100))%float /\
  interest_rate (fst (SavingsAccount_apply_interest self))
    = interest_rate self /\
  account_number (savings_base (fst (SavingsAccount_apply_interest self)))
    = account_number (savings_base self) /\
  account_holder (savings_base (fst (SavingsAccount_apply_interest self)))
    = account_holder (savings_base self).
Proof. repeat split. Qed.

(** ** Bank.add_account *)

Lemma add_account_cases (self : Bank) (a : account) :
  add_account self a =
    match get_account self (account_number (base a)) with
    | Some _ => (self, Raise DuplicateAccount)
    | None => (store self (account_number (base a)) a, Return tt)
    end.
Proof. reflexivity. Qed.

Lemma get_account_store (self : Bank) (k k' : string) (a : account) :
  get_account (store self k a) k' =
    if decide (k = k') then Some a else get_account self k'.
Proof. unfold get_account, store. simpl. apply lookup_insert. Qed.

Lemma store_same (self : Bank) (k : string) (a : account) :
  get_account self k = Some a -> store self k a = self.
Proof.
  destruct self as [m]. unfold get_account, store. simpl. intros H.
  f_equal. now apply insert_id.
Qed.

Lemma add_account_lookup (self : Bank) (a : account) (k : string) :
  get_account (fst (add_account self a)) k =
    match get_account self k with
    | Some x => Some x
    | None => if has_number k a then Some a else None
    end.
Proof.
  rewrite add_account_cases. unfold has_number.
  destruct (String.eqb_spec (account_number (base a)) k) as [->|Hne].
  - destruct (get_account self k) eqn:Hk; simpl; [exact Hk|].
    rewrite get_account_store. now rewrite decide_True.
  - destruct (get_account self (account_number (base a))) eqn:Ha; simpl.
    + now destruct (get_account self k).
    + rewrite get_account_store. rewrite decide_False by exact Hne.
      now destruct (get_account self k).
Qed.

Lemma add_accounts_lookup (l : list account) (self : Bank) (k : string) :
  get_account (add_accounts self l) k =
    match get_account self k with
    | Some x => Some x
    | None => find (has_number k) l
    end.
Proof.
  revert self. induction l as [|a l IH]; intros self; simpl.
  - now destruct (get_account self k).
  - unfold add_accounts in *. simpl. rewrite IH, add_account_lookup.
    destruct (get_account self k); [reflexivity|].
    now destruct (has_number k a).
Qed.

Lemma keyed_ids_unique (self : Bank) : keyed_by_number self -> ids_unique self.
Proof.
  intros Hk k1 k2 a1 a2 H1 H2 Heq.
  rewrite <- (Hk _ _ H1), <- (Hk _ _ H2). exact Heq.
Qed.

Lemma Bank_init_keyed : keyed_by_number Bank_init.
Proof.
  intros k a H. unfold get_account in H. simpl in H.
  now rewrite lookup_empty in H.
Qed.

Lemma add_account_keyed (self : Bank) (a : account) :
  keyed_by_number self -> keyed_by_number (fst (add_account self a)).
Proof.
  intros Hk k x. rewrite add_account_lookup.
  destruct (get_account self k) as [y|] eqn:Hy.
  - intros [= <-]. now apply Hk.
  - unfold has_number.
    destruct (String.eqb_spec (account_number (base a)) k) as [Heq|];
      [|discriminate].
    now intros [= <-].
Qed.

Lemma add_accounts_keyed (l : list account) (self : Bank) :
  keyed_by_number self -> keyed_by_number (add_accounts self l).
Proof.
  revert self. induction l as [|a l IH]; intros self Hk; [exact Hk|].
  apply (IH (fst (add_account self a))). now apply add_account_keyed.
Qed.

(** C7: [add_account] with an account whose number is already registered
    raises DuplicateAccount and leaves the bank, hence the registered entry,
    as it was.  So after any sequence of [add_account] calls on a fresh bank
    the object found under a number is the first one of the sequence that
    carries it; and a sequence of calls keeps every object under its own
    number, so that no two registered objects share a number. *)
Theorem add_account_unique_ids :
  (forall self a,
     is_Some (get_account self (account_number (base a))) ->
     add_account self a = (self, Raise DuplicateAccount)) /\
  (forall l k,
     get_account (add_accounts Bank_init l) k = find (has_number k) l) /\
  keyed_by_number Bank_init /\
  (forall self l,
     keyed_by_number self ->
     keyed_by_number (add_accounts self l)
     /\ ids_unique (add_accounts self l)).
Proof.
  split; [|split; [|split]].
  - intros self a [x Hx]. rewrite add_account_cases. now rewrite Hx.
  - intros l k. rewrite add_accounts_lookup.
    unfold get_account at 1. simpl. now rewrite lookup_empty.
  - exact Bank_init_keyed.
  - intros self l Hk. split; [now apply add_accounts_keyed|].
    now apply keyed_ids_unique, add_accounts_keyed.
Qed.

(** Registering the demo's savings account a second time is refused. *)
Lemma add_account_unique_ids_witness :
  add_account (my_bank 0) (Savings savings)
    = (my_bank 0, Raise DuplicateAccount) /\
  ids_unique (add_accounts Bank_init [Savings savings; Current current]).
Proof.
  destruct add_account_unique_ids as (Hdup & _ & Hinit & Hseq).
  split.
  - apply (Hdup (my_bank 0) (Savings savings)).
    exists (Savings savings). reflexivity.
  - apply (Hseq Bank_init [Savings savings; Current current] Hinit).
Defined.

(** ** Bank.transfer_funds *)

(** What [withdraw] does, whatever the class: it either raises and leaves the
    receiver as it was, or returns normally, the amount not being [<= 0],
    with the balance debited. *)
Lemma withdraw_cases (now : Z) (a : account) (amount : float) :
  (exists e, withdraw now a amount = (a, Raise e)) \/
  (withdraw now a amount = (debited a amount, Return tt)
   /\ (amount <=? 0)%float = false).
Proof.
  destruct a as [b|[b r]|[b l]|[b d c]];
    unfold withdraw, debited, on_fst, FixedDepositAccount_withdraw;
    try (destruct (unlock_date _) as [u|e];
         [destruct (now <? u); [left; eauto|] | left; eauto]);
    rewrite ?BankAccount_withdraw_cases, ?CurrentAccount_withdraw_cases;
    simpl;
    (destruct (amount <=? 0)%float; [left; eauto|]);
    match goal with
    | |- context [(?x <? amount)%float] =>
        destruct (x <? amount)%float; [left; eauto|]
    end;
    right; now split.
Qed.

Lemma snd_withdraw_Return (now : Z) (a : account) (amount : float) :
  snd (withdraw now a amount) = Return tt ->
  withdraw now a amount = (debited a amount, Return tt)
  /\ (amount <=? 0)%float = false.
Proof.
  intros H. destruct (withdraw_cases now a amount) as [[e He]|Hw];
    [|exact Hw].
  rewrite He in H. discriminate H.
Qed.

(** [transfer_funds] between two registered accounts. *)
Lemma transfer_funds_registered (now : Z) (self : Bank) (from to : string)
    (amount : float) (A B : account) :
  get_account self from = Some A -> get_account self to = Some B ->
  transfer_funds now self from to amount =
    match withdraw now A amount with
    | (A', Raise e) => (store self from A', Raise e)
    | (A', Return _) =>
        let D := if decide (to = from) then A' else B in
        (store (store self from A') to (fst (deposit D amount)),
         snd (deposit D amount))
    end.
Proof.
  intros HA HB. unfold transfer_funds. rewrite HA, HB.
  destruct (withdraw now A amount) as [A' [u|e]]; [|reflexivity].
  cbv zeta. now destruct (deposit _ amount).
Qed.

(** C6: when at least one of the two numbers is not registered,
    [transfer_funds] raises AccountNotFound and the bank, hence every
    balance in it, is as it was. *)
Theorem transfer_funds_not_found (now : Z) (self : Bank) (from to : string)
    (amount : float) :
  get_account self from = None \/ get_account self to = None ->
  transfer_funds now self from to amount = (self, Raise AccountNotFound).
Proof.
  intros H. unfold transfer_funds.
  destruct (get_account self from), (get_account self to);
    try reflexivity.
  destruct H; discriminate.
Qed.

(** A transfer to a number the demo's bank does not hold. *)
Lemma transfer_funds_not_found_witness :
  transfer_funds 0 (my_bank 0) "S1001" "X9999" 300
    = (my_bank 0, Raise AccountNotFound).
Proof.
  apply (transfer_funds_not_found 0 (my_bank 0) "S1001" "X9999" 300).
  right. reflexivity.
Defined.

Lemma balance_of_store (self : Bank) (k k' : string) (a : account) :
  balance_of (store self k a) k' =
    if decide (k = k') then Some (balance (base a)) else balance_of self k'.
Proof.
  unfold balance_of. rewrite get_account_store. now destruct (decide (k = k')).
Qed.

Lemma balance_debited (a : account) (amount : float) :
  balance (base (debited a amount)) = (balance (base a) - amount)%float.
Proof. unfold debited. now rewrite base_with_base. Qed.

Lemma balance_credited (a : account) (amount : float) :
  balance (base (credited a amount)) = (balance (base a) + amount)%float.
Proof. unfold credited. now rewrite base_with_base. Qed.

(** C1, as stated, fails: moving 0.2 from an account of 1000 to an account
    of 0.1 returns normally and leaves 999.8 and 0.30000000000000004; the two
    balances no longer add up to what they did, neither exactly nor as the
    float sum. *)
Lemma transfer_funds_conservation_counterexample :
  "A" <> "B" /\
  get_account small_bank "A" = Some thousand /\
  get_account small_bank "B" = Some dime /\
  snd (withdraw 0 thousand 0.2) = Return tt /\
  snd (transfer_funds 0 small_bank "A" "B" 0.2) = Return tt /\
  balance_of (fst (transfer_funds 0 small_bank "A" "B" 0.2)) "A"
    = Some 999.8%float /\
  balance_of (fst (transfer_funds 0 small_bank "A" "B" 0.2)) "B"
    = Some 0.30000000000000004%float /\
  ~ (exact 999.8 + exact 0.30000000000000004 == exact 1000 + exact 0.1)%Q /\
  (999.8 + 0.30000000000000004)%float <> (1000 + 0.1)%float.
Proof.
  split; [discriminate|].
  repeat (split; [reflexivity|]).
  split; [rationals_differ|]. floats_differ.
Qed.

(** C1, amended: for every bank holding distinct accounts A (under [from])
    and B (under [to]) and every amount for which A's [withdraw] returns
    normally, [transfer_funds(from, to, amount)] returns normally, A's balance
    becomes the float difference [A - amount], B's balance the float sum
    [B + amount], and no other account changes.  Each of the two results is
    rounded to the nearest double, so the sum of the two balances is kept
    only up to that rounding. *)
Theorem transfer_funds_distinct (now : Z) (self : Bank) (from to : string)
    (amount : float) (A B : account) :
  from <> to ->
  get_account self from = Some A ->
  get_account self to = Some B ->
  snd (withdraw now A amount) = Return tt ->
  transfer_funds now self from to amount
    = (store (store self from (debited A amount)) to (credited B amount),
       Return tt) /\
  balance_of (fst (transfer_funds now self from to amount)) from
    = Some (balance (base A) - amount)%float /\
  balance_of (fst (transfer_funds now self from to amount)) to
    = Some (balance (base B) + amount)%float /\
  (forall k, k <> from -> k <> to ->
     get_account (fst (transfer_funds now self from to amount)) k
       = get_account self k).
Proof.
  intros Hne HA HB Hok.
  destruct (snd_withdraw_Return _ _ _ Hok) as [Hw Hpos].
  rewrite (transfer_funds_registered _ _ _ _ _ _ _ HA HB), Hw. cbv zeta.
  rewrite decide_False by congruence.
  rewrite deposit_cases, Hpos. simpl. split; [reflexivity|]. split; [|split].
  - rewrite !balance_of_store.
    rewrite decide_False by congruence. rewrite decide_True by reflexivity.
    now rewrite balance_debited.
  - rewrite balance_of_store. rewrite decide_True by reflexivity.
    now rewrite balance_credited.
  - intros k Hk1 Hk2. rewrite !get_account_store.
    rewrite decide_False by congruence. now rewrite decide_False by congruence.
Qed.

(** The demo's transfer of 300 from S1001 to C1001, made on the fresh bank. *)
Lemma transfer_funds_distinct_witness :
  balance_of (fst (transfer_funds 0 (my_bank 0) "S1001" "C1001" 300)) "S1001"
    = Some 700%float /\
  balance_of (fst (transfer_funds 0 (my_bank 0) "S1001" "C1001" 300)) "C1001"
    = Some 500%float.
Proof.
  destruct (transfer_funds_distinct 0 (my_bank 0) "S1001" "C1001" 300
              (Savings savings) (Current current))
    as (_ & HA & HB & _).
  - discriminate.
  - reflexivity.
  - reflexivity.
  - reflexivity.
  - split; [exact HA | exact HB].
Defined.

(** C9, as stated, fails in its last part: moving 1 from an account of 10
    to an account of [1e16] goes through, [withdraw] and [deposit] both
    returning normally, and leaves 9 and [1e16]; the unit withdrawn is
    credited nowhere, so the transfer has lost funds, though not through the
    rollback gap. *)
Lemma transfer_funds_rounding_loss_counterexample :
  get_account rounding_bank "P" = Some ten /\
  get_account rounding_bank "Q" = Some quadrillions /\
  snd (withdraw 0 ten 1) = Return tt /\
  snd (transfer_funds 0 rounding_bank "P" "Q" 1) = Return tt /\
  balance_of (fst (transfer_funds 0 rounding_bank "P" "Q" 1)) "P"
    = Some 9%float /\
  balance_of (fst (transfer_funds 0 rounding_bank "P" "Q" 1)) "Q"
    = Some 1e16%float /\
  (exact 9 + exact 1e16 < exact 10 + exact 1e16)%Q.
Proof. repeat (split; [reflexivity|]). reflexivity. Qed.

(** C9, amended: in [transfer_funds] between two registered accounts,
    whenever the source's [withdraw(amount)] returns normally the amount is
    not [<= 0], so [deposit(amount)] returns normally on any account, the
    destination included, and the transfer returns normally with the source
    debited and the destination credited: the source holds the float
    difference [balance - amount] and the destination the float sum of its
    balance (the debited one, when it is the source itself) and the amount.
    Whenever the transfer raises, it raises what [withdraw] raised and the
    bank is as it was.  So the state in which the withdrawal is made and the
    deposit is not is never reached; what the credit can still lose is the
    rounding of that float sum. *)
Theorem transfer_funds_no_partial_transfer (now : Z) (self : Bank)
    (from to : string) (amount : float) (A B : account) :
  get_account self from = Some A ->
  get_account self to = Some B ->
  (snd (withdraw now A amount) = Return tt ->
     (forall D, snd (deposit D amount) = Return tt) /\
     snd (transfer_funds now self from to amount) = Return tt /\
     transfer_funds now self from to amount
       = (store (store self from (debited A amount)) to
                (credited (if decide (to = from) then debited A amount else B)
                          amount),
          Return tt) /\
     balance_of (fst (transfer_funds now self from to amount)) to
       = Some ((if decide (to = from)
                then balance (base A) - amount
                else balance (base B)) + amount)%float /\
     (to <> from ->
        balance_of (fst (transfer_funds now self from to amount)) from
          = Some (balance (base A) - amount)%float)) /\
  (forall e, snd (transfer_funds now self from to amount) = Raise e ->
     snd (withdraw now A amount) = Raise e /\
     fst (transfer_funds now self from to amount) = self).
Proof.
  intros HA HB.
  rewrite (transfer_funds_registered _ _ _ _ _ _ _ HA HB).
  destruct (withdraw_cases now A amount) as [[e He]|[Hw Hpos]].
  - rewrite He. simpl. split; [discriminate|].
    intros e' [= <-]. split; [reflexivity|]. now apply store_same.
  - rewrite Hw. cbv zeta. split.
    + intros _. split; [intros D; now rewrite deposit_cases, Hpos|].
      rewrite !deposit_cases, Hpos. cbn [fst snd].
      split; [reflexivity|]. split; [reflexivity|]. split.
      * rewrite balance_of_store, decide_True by reflexivity.
        rewrite balance_credited.
        destruct (decide (to = from)); [now rewrite balance_debited|].
        reflexivity.
      * intros Hne. rewrite !balance_of_store.
        rewrite decide_False by exact Hne.
        rewrite decide_True by reflexivity. now rewrite balance_debited.
    + rewrite deposit_cases, Hpos. discriminate.
Qed.

(** The demo's transfer of 300 from S1001 to C1001, made on the fresh bank:
    the savings account is debited and the current account credited. *)
Lemma transfer_funds_no_partial_transfer_witness :
  (forall D, snd (deposit D 300) = Return tt) /\
  snd (transfer_funds 0 (my_bank 0) "S1001" "C1001" 300) = Return tt /\
  balance_of (fst (transfer_funds 0 (my_bank 0) "S1001" "C1001" 300)) "C1001"
    = Some 500%float /\
  balance_of (fst (transfer_funds 0 (my_bank 0) "S1001" "C1001" 300)) "S1001"
    = Some 700%float.
Proof.
  destruct (transfer_funds_no_partial_transfer 0 (my_bank 0) "S1001" "C1001"
              300 (Savings savings) (Current current)) as [H _].
  - reflexivity.
  - reflexivity.
  - destruct H as (Hd & Hr & _ & Hto & Hfrom); [reflexivity|].
    split; [exact Hd|]. split; [exact Hr|]. split; [exact Hto|].
    apply Hfrom. discriminate.
Defined.

(** C10, as stated, fails: moving 0.1 from the account of 0.45 to itself
    returns normally and leaves 0.44999999999999996, not 0.45. *)
Lemma transfer_funds_self_counterexample :
  get_account small_bank "C" = Some forty_five /\
  snd (withdraw 0 forty_five 0.1) = Return tt /\
  snd (transfer_funds 0 small_bank "C" "C" 0.1) = Return tt /\
  balance_of (fst (transfer_funds 0 small_bank "C" "C" 0.1)) "C"
    = Some 0.44999999999999996%float /\
  balance_of (fst (transfer_funds 0 small_bank "C" "C" 0.1)) "C"
    <> balance_of small_bank "C".
Proof.
  repeat (split; [reflexivity|]).
  intros H.
  apply (f_equal (fun o => match o with
                           | Some x => Prim2SF x
                           | None => S754_nan
                           end)) in H.
  vm_compute in H. discriminate H.
Qed.

(** C10, amended: for every bank and every registered account A, a transfer
    from A to itself of an amount for which A's [withdraw] returns normally
    returns normally; the withdrawal and the deposit are made on the same
    object, whose balance becomes the float value [(A - amount) + amount]
    (equal to the balance before the call up to the rounding of the two
    operations), and no other account changes. *)
Theorem transfer_funds_self (now : Z) (self : Bank) (id : string)
    (amount : float) (A : account) :
  get_account self id = Some A ->
  snd (withdraw now A amount) = Return tt ->
  transfer_funds now self id id amount
    = (store self id (credited (debited A amount) amount), Return tt) /\
  balance_of (fst (transfer_funds now self id id amount)) id
    = Some (balance (base A) - amount + amount)%float /\
  (forall k, k <> id ->
     get_account (fst (transfer_funds now self id id amount)) k
       = get_account self k).
Proof.
  intros HA Hok.
  destruct (snd_withdraw_Return _ _ _ Hok) as [Hw Hpos].
  rewrite (transfer_funds_registered _ _ _ _ _ _ _ HA HA), Hw. cbv zeta.
  rewrite decide_True by reflexivity.
  rewrite deposit_cases, Hpos. simpl.
  assert (Hst : store (store self id (debited A amount)) id
                      (credited (debited A amount) amount)
                = store self id (credited (debited A amount) amount)).
  { unfold store. simpl. f_equal. apply insert_insert_eq. }
  rewrite Hst. split; [reflexivity|]. split.
  - rewrite balance_of_store, decide_True by reflexivity.
    now rewrite balance_credited, balance_debited.
  - intros k Hk. rewrite get_account_store. now rewrite decide_False by congruence.
Qed.

Lemma transfer_funds_self_witness :
  balance_of (fst (transfer_funds 0 (my_bank 0) "C1001" "C1001" 600)) "C1001"
    = Some 200%float.
Proof.
  destruct (transfer_funds_self 0 (my_bank 0) "C1001" 600 (Current current))
    as (_ & H & _).
  - reflexivity.
  - reflexivity.
  - exact H.
Defined.

(** * Further properties of the code *)

(** ** Signs of binary64 results *)

Lemma SFleb_zero_nonneg (x : spec_float) :
  SFleb (S754_zero false) x = SF_nonneg x.
Proof. destruct x as [s|[]| |[] m e]; reflexivity. Qed.

Lemma is_nan_Prim2SF (x : float) :
  is_nan x = true <-> Prim2SF x = S754_nan.
Proof.
  split.
  - intros H. unfold Prim2SF. now rewrite H.
  - intros H. unfold is_nan. rewrite FloatAxioms.eqb_spec, H. reflexivity.
Qed.

Lemma SFcompare_refl (x : spec_float) :
  x <> S754_nan -> SFcompare x x = Some Eq.
Proof.
  destruct x as [s|s| |s m e]; simpl; try congruence; intros _.
  - now destruct s.
  - rewrite Z.compare_refl.
    assert (H : Pos.compare_cont Eq m m = Eq) by apply Pos.compare_cont_refl.
    rewrite H. now destruct s.
Qed.

Lemma shr_1_nonneg mrs : 0 <= shr_m mrs -> 0 <= shr_m (shr_1 mrs).
Proof.
  destruct mrs as [m r s]. simpl.
  destruct m as [|[p|p|]|p]; simpl; lia.
Qed.

Lemma iter_pos_invariant {A} (f : A -> A) (P : A -> Prop) :
  (forall x, P x -> P (f x)) ->
  forall (p : positive) (x : A), P x -> P (SpecFloat.iter_pos f p x).
Proof.
  intros Hf. induction p as [p IH|p IH|]; intros x Hx; simpl; auto.
Qed.

Lemma shr_nonneg mrs e n : 0 <= shr_m mrs -> 0 <= shr_m (fst (shr mrs e n)).
Proof.
  intros H. unfold shr. destruct n; simpl; trivial.
  apply (iter_pos_invariant shr_1 (fun r => 0 <= shr_m r)); trivial.
  apply shr_1_nonneg.
Qed.

Lemma shr_fexp_nonneg prec emax m e l :
  0 <= m -> 0 <= shr_m (fst (shr_fexp prec emax m e l)).
Proof.
  intros H. unfold shr_fexp. apply shr_nonneg.
  destruct l as [|[]]; exact H.
Qed.

Lemma round_nearest_even_nonneg m l : 0 <= m -> 0 <= round_nearest_even m l.
Proof.
  intros H. destruct l as [|[]]; simpl; try lia. destruct (Z.even m); lia.
Qed.

Lemma binary_round_aux_nonneg prec emax m e l :
  0 <= m -> SF_nonneg (binary_round_aux prec emax false m e l) = true.
Proof.
  intros H. unfold binary_round_aux.
  pose proof (shr_fexp_nonneg prec emax m e l H) as H1.
  destruct (shr_fexp prec emax m e l) as [mrs' e']. simpl in H1.
  pose proof (shr_fexp_nonneg prec emax _ e' loc_Exact
                (round_nearest_even_nonneg _ (loc_of_shr_record mrs') H1)) as H2.
  destruct (shr_fexp prec emax _ e' loc_Exact) as [mrs'' e'']. simpl in H2.
  destruct (shr_m mrs'') as [|p|p]; try reflexivity.
  - now destruct (e'' <=? emax - prec).
  - lia.
Qed.

Lemma binary_normalize_nonneg prec emax m e :
  0 <= m -> SF_nonneg (binary_normalize prec emax m e false) = true.
Proof.
  intros H. destruct m as [|p|p]; simpl; try reflexivity; [|lia].
  unfold binary_round.
  destruct (shl_align p e _) as [mz ez].
  now apply binary_round_aux_nonneg.
Qed.

Lemma digits2_pos_bounds (m : positive) :
  2 ^ (Z.pos (digits2_pos m) - 1) <= Z.pos m < 2 ^ Z.pos (digits2_pos m).
Proof.
  induction m as [p IH|p IH|]; simpl digits2_pos.
  - rewrite Pos2Z.inj_succ. replace (Z.succ (Z.pos (digits2_pos p)) - 1)
      with (Z.succ (Z.pos (digits2_pos p) - 1)) by lia.
    rewrite !Z.pow_succ_r by lia. lia.
  - rewrite Pos2Z.inj_succ. replace (Z.succ (Z.pos (digits2_pos p)) - 1)
      with (Z.succ (Z.pos (digits2_pos p) - 1)) by lia.
    rewrite !Z.pow_succ_r by lia. lia.
  - simpl. lia.
Qed.

Lemma iter_xO_pow (m d : positive) :
  Z.pos (Pos.iter xO m d) = Z.pos m * 2 ^ Z.pos d.
Proof.
  induction d as [|d IH] using Pos.peano_ind.
  - simpl. lia.
  - rewrite Pos.iter_succ, Pos2Z.inj_succ, Z.pow_succ_r by lia.
    rewrite Pos2Z.inj_xO, IH. lia.
Qed.

Lemma shl_align_value (m : positive) (e e' : Z) :
  e' <= e -> Z.pos (fst (shl_align m e e')) = Z.pos m * 2 ^ (e - e').
Proof.
  intros H. unfold shl_align.
  destruct (e' - e) as [|p|p] eqn:Hd; simpl.
  - replace (e - e') with 0 by lia. simpl. lia.
  - lia.
  - rewrite iter_xO_pow. now replace (e - e') with (Z.pos p) by lia.
Qed.

(** Of two valid binary64 numbers, the one with the larger exponent has the
    larger value. *)
Lemma bounded_exponent_lt (mx my : positive) (ex ey : Z) :
  bounded prec emax mx ex = true -> bounded prec emax my ey = true ->
  ey < ex -> Z.pos my < Z.pos mx * 2 ^ (ex - ey).
Proof.
  unfold bounded, canonical_mantissa, fexp, SpecFloat.emin, prec, emax.
  intros Hx Hy Hlt.
  apply andb_prop in Hx as [Hx _]. apply andb_prop in Hy as [Hy _].
  apply Z.eqb_eq in Hx, Hy.
  pose proof (digits2_pos_bounds mx) as [Hmx _].
  pose proof (digits2_pos_bounds my) as [_ Hmy].
  assert (Hdx : Z.pos (digits2_pos mx) = 53) by lia.
  assert (Hdy : Z.pos (digits2_pos my) <= 53) by lia.
  rewrite Hdx in Hmx.
  assert (Hp : 2 ^ Z.pos (digits2_pos my) <= 2 ^ 53)
    by (apply Z.pow_le_mono_r; lia).
  assert (Hq : 2 ^ 1 <= 2 ^ (ex - ey)) by (apply Z.pow_le_mono_r; lia).
  change (2 ^ 1) with 2 in Hq. change (53 - 1) with 52 in Hmx.
  change (2 ^ 53) with (2 * 2 ^ 52) in Hp.
  nia.
Qed.

Lemma SFsub_nonneg (x y : spec_float) :
  valid_binary x = true -> valid_binary y = true ->
  (forall s, y <> S754_infinity s) ->
  SF_nonneg x = true ->
  SFltb (S754_zero false) y = true ->
  SFleb y x = true ->
  SF_nonneg (SF64sub x y) = true.
Proof.
  intros Vx Vy Hfin Hx Hy Hle. unfold SFltb, SFleb in *.
  destruct y as [sy|sy| |sy my ey]; try discriminate Hy;
    try (exfalso; now apply (Hfin sy)).
  destruct sy; [discriminate|].
  destruct x as [sx|sx| |sx mx ex]; try discriminate Hx;
    try discriminate Hle; try (destruct sx; discriminate || reflexivity).
  destruct sx; [discriminate|].
  simpl in Vx, Vy, Hle. unfold SF64sub, SFsub. simpl cond_Zopp.
  apply binary_normalize_nonneg.
  destruct (Z.compare_spec ey ex) as [Heq|Hlt|Hgt]; try discriminate Hle.
  - subst ey. rewrite Z.min_id.
    rewrite !shl_align_value by lia. rewrite Z.sub_diag.
    change (2 ^ 0) with 1.
    change (Pos.compare_cont Eq my mx) with (Pos.compare my mx) in Hle.
    destruct (Pos.compare_spec my mx); try discriminate Hle; lia.
  - rewrite Z.min_r by lia. rewrite !shl_align_value by lia.
    rewrite Z.sub_diag. change (2 ^ 0) with 1.
    pose proof (bounded_exponent_lt mx my ex ey Vx Vy Hlt). lia.
Qed.

Lemma SFadd_nonneg (x y : spec_float) :
  SF_nonneg x = true -> SF_nonneg y = true ->
  SF_nonneg (SF64add x y) = true.
Proof.
  intros Hx Hy.
  destruct x as [sx|[]| |[] mx ex]; try discriminate Hx;
    destruct y as [sy|[]| |[] my ey]; try discriminate Hy;
    try reflexivity; try (destruct sx, sy; reflexivity);
    try (destruct sx; reflexivity).
  unfold SF64add, SFadd. simpl cond_Zopp.
  apply binary_normalize_nonneg. lia.
Qed.

Lemma SFmul_nonneg (x y : spec_float) :
  x <> S754_nan -> (forall s, x <> S754_zero s) ->
  (forall s, x <> S754_infinity s) ->
  SF_nonneg x = true -> SF_nonneg y = true ->
  SF_nonneg (SF64mul x y) = true.
Proof.
  intros Hn Hz Hi Hx Hy.
  destruct x as [sx|sx| |[] mx ex]; try discriminate Hx;
    try (exfalso; now apply (Hz sx)); try (exfalso; now apply (Hi sx)).
  destruct y as [sy|[]| |[] my ey]; try discriminate Hy; try reflexivity.
  unfold SF64mul, SFmul. simpl xorb. apply binary_round_aux_nonneg. lia.
Qed.

Lemma SFdiv_nonneg (x : spec_float) (my : positive) (ey : Z) :
  SF_nonneg x = true ->
  SF_nonneg (SF64div x (S754_finite false my ey)) = true.
Proof.
  intros Hx.
  destruct x as [sx|[]| |[] mx ex]; try discriminate Hx; try reflexivity.
  unfold SF64div, SFdiv, SFdiv_core_binary.
  set (m' := match _ with Z.pos _ => _ | Z0 => Z.pos mx | Z.neg _ => 0 end).
  assert (Hm : 0 <= m').
  { subst m'. destruct (_ - _ - _) as [|p|p]; try lia.
    apply Z.shiftl_nonneg. lia. }
  pose proof (Z.div_eucl_eq m' (Z.pos my) ltac:(lia)) as Heq.
  pose proof (Z.mod_pos_bound m' (Z.pos my) ltac:(lia)) as Hr.
  unfold Z.modulo in Hr.
  destruct (Z.div_eucl m' (Z.pos my)) as [q r]. simpl xorb.
  apply binary_round_aux_nonneg. nia.
Qed.

(** ** The same on floats *)

Lemma float_nonneg_SF (x : float) :
  (0 <=? x)%float = SF_nonneg (Prim2SF x).
Proof.
  rewrite leb_spec. change (Prim2SF 0) with (S754_zero false).
  apply SFleb_zero_nonneg.
Qed.

Lemma float_pos_SF (x : float) :
  (0 <? x)%float = true ->
  SF_nonneg (Prim2SF x) = true /\ forall s, Prim2SF x <> S754_zero s.
Proof.
  rewrite ltb_spec. change (Prim2SF 0) with (S754_zero false).
  unfold SFltb. destruct (Prim2SF x) as [s|[]| |[] m e]; try discriminate;
    intros _; split; try reflexivity; intros s'; discriminate.
Qed.

Lemma is_finite_SF (x : float) :
  is_finite x = true ->
  Prim2SF x <> S754_nan /\ forall s, Prim2SF x <> S754_infinity s.
Proof.
  unfold is_finite. intros H. apply negb_true_iff, orb_false_iff in H.
  destruct H as [Hn Hi]. split.
  - intros E. apply is_nan_Prim2SF in E. congruence.
  - intros s E. unfold is_infinity in Hi.
    rewrite FloatAxioms.eqb_spec, abs_spec, E in Hi.
    change (Prim2SF infinity) with (S754_infinity false) in Hi.
    discriminate Hi.
Qed.

Lemma is_nan_false_SF (x : float) :
  is_nan x = false -> Prim2SF x <> S754_nan.
Proof. intros H E. apply is_nan_Prim2SF in E. congruence. Qed.

(** A number is [<= 0] or [> 0]. *)
Lemma float_sign_total (a : float) :
  is_nan a = false -> (a <=? 0)%float = true \/ (0 <? a)%float = true.
Proof.
  intros H. apply is_nan_false_SF in H. rewrite leb_spec, ltb_spec.
  change (Prim2SF 0) with (S754_zero false). unfold SFleb, SFltb.
  destruct (Prim2SF a) as [s|[]| |[] m e]; simpl; auto; congruence.
Qed.

(** Among numbers, [not (b < a)] is [a <= b]. *)
Lemma float_not_lt_le (a b : float) :
  is_nan a = false -> is_nan b = false ->
  (b <? a)%float = false -> (a <=? b)%float = true.
Proof.
  intros Ha Hb. apply is_nan_false_SF in Ha, Hb.
  rewrite ltb_spec, leb_spec. unfold SFltb, SFleb.
  rewrite (SFcompare_antisym (Prim2SF b) (Prim2SF a)).
  destruct (SFcompare (Prim2SF b) (Prim2SF a)) as [[]|] eqn:E; simpl;
    try congruence.
  exfalso. destruct (Prim2SF a), (Prim2SF b); simpl in E; congruence.
Qed.

Lemma float_sub_nonneg (b a : float) :
  (0 <=? b)%float = true -> is_finite a = true ->
  (0 <? a)%float = true -> (a <=? b)%float = true ->
  (0 <=? b - a)%float = true.
Proof.
  rewrite !float_nonneg_SF, sub_spec, ltb_spec, leb_spec.
  change (Prim2SF 0) with (S754_zero false).
  intros Hb Ha Hpos Hle. apply SFsub_nonneg; trivial.
  - apply Prim2SF_valid.
  - apply Prim2SF_valid.
  - now apply is_finite_SF.
Qed.

Lemma float_add_nonneg (b a : float) :
  (0 <=? b)%float = true -> (0 <=? a)%float = true ->
  (0 <=? b + a)%float = true.
Proof.
  rewrite !float_nonneg_SF, add_spec. apply SFadd_nonneg.
Qed.

Lemma float_pos_nonneg (a : float) :
  (0 <? a)%float = true -> (0 <=? a)%float = true.
Proof.
  intros H. rewrite float_nonneg_SF. now apply float_pos_SF.
Qed.

(** Adding a positive amount to [0.0] gives that amount. *)
Lemma float_zero_add (a : float) :
  (0 <? a)%float = true -> (0 + a)%float = a.
Proof.
  intros H. apply Prim2SF_inj. rewrite add_spec.
  change (Prim2SF 0) with (S754_zero false).
  apply float_pos_SF in H as [Hn Hz].
  destruct (Prim2SF a) as [s|[]| |[] m e]; try discriminate Hn;
    try reflexivity.
  exfalso. now apply (Hz s).
Qed.

Lemma float_nan_le (a b : float) : is_nan a = true -> (a <=? b)%float = false.
Proof.
  intros H. apply is_nan_Prim2SF in H. now rewrite leb_spec, H.
Qed.

Lemma float_lt_nan (a b : float) : is_nan a = true -> (b <? a)%float = false.
Proof.
  intros H. apply is_nan_Prim2SF in H. rewrite ltb_spec, H. unfold SFltb.
  now destruct (Prim2SF b).
Qed.

Lemma float_nan_lt (a b : float) : is_nan a = true -> (a <? b)%float = false.
Proof.
  intros H. apply is_nan_Prim2SF in H. now rewrite ltb_spec, H.
Qed.

Lemma float_add_nan_r (b a : float) : is_nan a = true -> is_nan (b + a) = true.
Proof.
  intros H. apply is_nan_Prim2SF in H. apply is_nan_Prim2SF.
  rewrite add_spec, H. now destruct (Prim2SF b).
Qed.

Lemma float_add_nan_l (b a : float) : is_nan b = true -> is_nan (b + a) = true.
Proof.
  intros H. apply is_nan_Prim2SF in H. apply is_nan_Prim2SF.
  now rewrite add_spec, H.
Qed.

Lemma float_sub_nan_r (b a : float) : is_nan a = true -> is_nan (b - a) = true.
Proof.
  intros H. apply is_nan_Prim2SF in H. apply is_nan_Prim2SF.
  rewrite sub_spec, H. now destruct (Prim2SF b).
Qed.

Lemma float_le_nan (a b : float) : is_nan b = true -> (a <=? b)%float = false.
Proof.
  intros H. apply is_nan_Prim2SF in H. rewrite leb_spec, H. unfold SFleb.
  now destruct (Prim2SF a).
Qed.

Lemma float_nonneg_not_nan (b : float) :
  (0 <=? b)%float = true -> is_nan b = false.
Proof.
  intros H. destruct (is_nan b) eqn:E; [|reflexivity].
  rewrite (float_le_nan 0 b E) in H. discriminate H.
Qed.

Lemma is_finite_not_nan (a : float) : is_finite a = true -> is_nan a = false.
Proof.
  unfold is_finite. intros H. apply negb_true_iff, orb_false_iff in H.
  now destruct H.
Qed.

(** ** Registering and looking up *)

(** X1: a fresh bank holds no account, and [get_account] answers [None] for
    a number that is not registered.  [add_account] with an account whose
    number is not registered returns normally; afterwards [get_account]
    finds that very account under its number, every other number leads to
    what it led to before, and the bank holds one account more. *)
Theorem add_account_then_get_account :
  (forall k, get_account Bank_init k = None) /\
  (forall self a,
     get_account self (account_number (base a)) = None ->
     snd (add_account self a) = Return tt /\
     get_account (fst (add_account self a)) (account_number (base a))
       = Some a /\
     (forall k, k <> account_number (base a) ->
        get_account (fst (add_account self a)) k = get_account self k) /\
     size (accounts (fst (add_account self a))) = S (size (accounts self))).
Proof.
  split.
  - intros k. unfold get_account. simpl. apply lookup_empty.
  - intros self a Hnew. rewrite add_account_cases, Hnew. simpl.
    split; [reflexivity|]. split; [|split].
    + rewrite get_account_store. now rewrite decide_True.
    + intros k Hk. rewrite get_account_store.
      now rewrite decide_False by congruence.
    + now apply map_size_insert_None.
Qed.

(** Registering the demo's current account in a bank that holds only its
    savings account. *)
Lemma add_account_then_get_account_witness :
  get_account (fst (add_account (add_accounts Bank_init [Savings savings])
                                (Current current))) "C1001"
    = Some (Current current) /\
  get_account (fst (add_account (add_accounts Bank_init [Savings savings])
                                (Current current))) "S1001"
    = Some (Savings savings).
Proof.
  destruct (proj2 add_account_then_get_account
              (add_accounts Bank_init [Savings savings]) (Current current))
    as (_ & Hget & Hother & _).
  - reflexivity.
  - split; [exact Hget|]. rewrite (Hother "S1001"); [reflexivity|discriminate].
Defined.

(** ** Calls that raise *)

(** [transfer_funds] between registered accounts either raises what the
    source's [withdraw] raises and changes nothing, or returns normally with
    the source debited and the destination credited. *)
Lemma transfer_funds_outcome (now : Z) (self : Bank) (from to : string)
    (amount : float) (A B : account) :
  get_account self from = Some A -> get_account self to = Some B ->
  (exists e, withdraw now A amount = (A, Raise e)
             /\ transfer_funds now self from to amount = (self, Raise e)) \/
  (withdraw now A amount = (debited A amount, Return tt)
   /\ (amount <=? 0)%float = false
   /\ transfer_funds now self from to amount
      = (store (store self from (debited A amount)) to
               (credited (if decide (to = from) then debited A amount else B)
                         amount),
         Return tt)).
Proof.
  intros HA HB. rewrite (transfer_funds_registered _ _ _ _ _ _ _ HA HB).
  destruct (withdraw_cases now A amount) as [[e He]|[Hw Hpos]].
  - left. exists e. rewrite He. split; [reflexivity|].
    now rewrite (store_same _ _ _ HA).
  - right. rewrite Hw. cbv zeta. rewrite deposit_cases, Hpos.
    repeat split; trivial.
Qed.

Lemma transfer_funds_not_found_aux (now : Z) (self : Bank) (from to : string)
    (amount : float) :
  get_account self from = None \/ get_account self to = None ->
  transfer_funds now self from to amount
    = (self, Raise (ValueError "One or both accounts not found.")).
Proof.
  intros H. unfold transfer_funds.
  destruct (get_account self from), (get_account self to); try reflexivity.
  destruct H; discriminate.
Qed.

(** X2: a call that raises changes nothing.  Whenever [deposit], [withdraw]
    (of any class, at any time), [add_account] or [transfer_funds] raises,
    the account, respectively the bank, is exactly as it was before the
    call. *)
Theorem raising_call_changes_nothing (now : Z) :
  (forall a amount e,
     snd (deposit a amount) = Raise e -> fst (deposit a amount) = a) /\
  (forall a amount e,
     snd (withdraw now a amount) = Raise e ->
     fst (withdraw now a amount) = a) /\
  (forall self a e,
     snd (add_account self a) = Raise e -> fst (add_account self a) = self) /\
  (forall self from to amount e,
     snd (transfer_funds now self from to amount) = Raise e ->
     fst (transfer_funds now self from to amount) = self).
Proof.
  split; [|split; [|split]].
  - intros a amount e. rewrite deposit_cases.
    now destruct (amount <=? 0)%float.
  - intros a amount e.
    destruct (withdraw_cases now a amount) as [[e' ->]|[-> _]];
      [reflexivity|discriminate].
  - intros self a e. rewrite add_account_cases.
    now destruct (get_account self (account_number (base a))).
  - intros self from to amount e.
    destruct (get_account self from) as [A|] eqn:HA;
      [destruct (get_account self to) as [B|] eqn:HB|].
    + destruct (transfer_funds_outcome now self from to amount A B HA HB)
        as [(e' & _ & ->)|(_ & _ & ->)]; [reflexivity|discriminate].
    + now rewrite (transfer_funds_not_found_aux now self from to amount)
        by (right; exact HB).
    + now rewrite (transfer_funds_not_found_aux now self from to amount)
        by (left; exact HA).
Qed.

(** The demo's early withdrawal from the fixed deposit, and a transfer of
    more than the savings account holds. *)
Lemma raising_call_changes_nothing_witness :
  fst (withdraw 0 (Fixed (fixed 0)) 1000) = Fixed (fixed 0) /\
  fst (transfer_funds 0 (my_bank 0) "S1001" "C1001" 5000) = my_bank 0.
Proof.
  destruct (raising_call_changes_nothing 0) as (_ & Hw & _ & Ht). split.
  - apply (Hw (Fixed (fixed 0)) 1000%float LockPeriodActive). reflexivity.
  - apply (Ht (my_bank 0) "S1001" "C1001" 5000%float InsufficientFunds).
    reflexivity.
Defined.

(** ** What a call leaves alone *)

Lemma same_but_balance_refl (a : account) : same_but_balance a a.
Proof. unfold same_but_balance. now destruct a as [[]|[[]]|[[]]|[[]]]. Qed.

Lemma same_but_balance_with_base (a : account) (b : float) :
  same_but_balance a (with_base a (set_balance (base a) b)).
Proof. unfold same_but_balance. now rewrite base_with_base. Qed.

Lemma same_but_balance_trans (a b c : account) :
  same_but_balance a b -> same_but_balance b c -> same_but_balance a c.
Proof.
  unfold same_but_balance. intros -> ->.
  now destruct a as [[]|[[]]|[[]]|[[]]].
Qed.

(** X3: [deposit], [withdraw] and [apply_interest] touch nothing but the
    balance.  Whatever the class, the amount, the time and the outcome, the
    account after the call has the class, number, holder, interest rate,
    overdraft limit, lock period and creation date it had before. *)
Theorem methods_change_only_balance (now : Z) (a : account) (amount : float) :
  same_but_balance a (fst (deposit a amount)) /\
  same_but_balance a (fst (withdraw now a amount)) /\
  (forall s, a = Savings s ->
     same_but_balance a (Savings (fst (SavingsAccount_apply_interest s)))).
Proof.
  split; [|split].
  - rewrite deposit_cases. destruct (amount <=? 0)%float; simpl.
    + apply same_but_balance_refl.
    + apply same_but_balance_with_base.
  - destruct (withdraw_cases now a amount) as [[e ->]|[-> _]]; simpl.
    + apply same_but_balance_refl.
    + apply same_but_balance_with_base.
  - intros s ->. unfold same_but_balance. reflexivity.
Qed.

Lemma methods_change_only_balance_witness :
  same_but_balance (Savings savings)
    (Savings (fst (SavingsAccount_apply_interest savings))).
Proof.
  apply (proj2 (proj2 (methods_change_only_balance 0 (Savings savings) 0))
               savings).
  reflexivity.
Defined.

Lemma same_but_balance_number (a a' : account) :
  same_but_balance a a' ->
  account_number (base a') = account_number (base a).
Proof. intros ->. now rewrite base_with_base. Qed.

(** X4: [transfer_funds] keeps the registry.  Whatever its arguments and its
    outcome, the bank holds afterwards exactly the numbers it held before,
    each leading to the account it led to, with at most another balance;
    accounts other than the source and the destination are untouched; and
    if every account was registered under its own number, every account
    still is. *)
Theorem transfer_funds_keeps_registry (now : Z) (self : Bank)
    (from to : string) (amount : float) :
  (forall k,
     match get_account self k,
           get_account (fst (transfer_funds now self from to amount)) k with
     | Some a, Some a' => same_but_balance a a'
     | None, None => True
     | _, _ => False
     end) /\
  (forall k, k <> from -> k <> to ->
     get_account (fst (transfer_funds now self from to amount)) k
       = get_account self k) /\
  (keyed_by_number self ->
   keyed_by_number (fst (transfer_funds now self from to amount))).
Proof.
  assert (Hsame : forall k,
     match get_account self k,
           get_account (fst (transfer_funds now self from to amount)) k with
     | Some a, Some a' => same_but_balance a a'
     | None, None => True
     | _, _ => False
     end).
  { intros k.
    assert (Hid : match get_account self k, get_account self k with
                  | Some a, Some a' => same_but_balance a a'
                  | None, None => True
                  | _, _ => False
                  end)
      by (destruct (get_account self k); [apply same_but_balance_refl|exact I]).
    destruct (get_account self from) as [A|] eqn:HA;
      [destruct (get_account self to) as [B|] eqn:HB|].
    - destruct (transfer_funds_outcome now self from to amount A B HA HB)
        as [(e & _ & ->)|(_ & _ & ->)]; [exact Hid|]. simpl.
      rewrite !get_account_store.
      destruct (decide (to = k)) as [<-|Hto].
      + rewrite HB. destruct (decide (to = from)) as [->|Hne].
        * rewrite HA in HB. injection HB as <-.
          apply (same_but_balance_trans _ (debited A amount));
            apply same_but_balance_with_base.
        * apply same_but_balance_with_base.
      + destruct (decide (from = k)) as [<-|Hfrom]; [|exact Hid].
        rewrite HA. apply same_but_balance_with_base.
    - now rewrite (transfer_funds_not_found_aux now self from to amount)
        by (right; exact HB).
    - now rewrite (transfer_funds_not_found_aux now self from to amount)
        by (left; exact HA). }
  split; [exact Hsame|]. split.
  - intros k Hk1 Hk2.
    destruct (get_account self from) as [A|] eqn:HA;
      [destruct (get_account self to) as [B|] eqn:HB|].
    + destruct (transfer_funds_outcome now self from to amount A B HA HB)
        as [(e & _ & ->)|(_ & _ & ->)]; [reflexivity|]. simpl.
      rewrite !get_account_store.
      rewrite decide_False by congruence. now rewrite decide_False by congruence.
    + now rewrite (transfer_funds_not_found_aux now self from to amount)
        by (right; exact HB).
    + now rewrite (transfer_funds_not_found_aux now self from to amount)
        by (left; exact HA).
  - intros Hkeyed k a' Hk. specialize (Hsame k). rewrite Hk in Hsame.
    destruct (get_account self k) as [a|] eqn:Ha; [|contradiction].
    rewrite (same_but_balance_number _ _ Hsame). now apply Hkeyed.
Qed.

(** After the demo's transfer the fixed deposit is what it was, and every
    account is still under its own number. *)
Lemma transfer_funds_keeps_registry_witness :
  get_account (fst (transfer_funds 0 (my_bank 0) "S1001" "C1001" 300)) "F1001"
    = get_account (my_bank 0) "F1001" /\
  keyed_by_number (fst (transfer_funds 0 (my_bank 0) "S1001" "C1001" 300)).
Proof.
  destruct (transfer_funds_keeps_registry 0 (my_bank 0) "S1001" "C1001" 300)
    as (_ & Hother & Hkeyed).
  split.
  - apply Hother; discriminate.
  - apply Hkeyed. unfold my_bank. apply add_accounts_keyed, Bank_init_keyed.
Defined.

(** ** What can be raised *)

Lemma deposit_raises (a : account) (amount : float) (e : exn) :
  snd (deposit a amount) = Raise e -> e = InvalidAmount_deposit.
Proof.
  rewrite deposit_cases. destruct (amount <=? 0)%float; simpl; congruence.
Qed.

Lemma withdraw_raises (now : Z) (a : account) (amount : float) (e : exn) :
  snd (withdraw now a amount) = Raise e ->
  match a with
  | Basic _ | Savings _ =>
      e = InvalidAmount_withdraw \/ e = InsufficientFunds
  | Current _ =>
      e = InvalidAmount_withdraw \/ e = OverdraftExceeded
  | Fixed _ =>
      e = OverflowError \/ e = LockPeriodActive
      \/ e = InvalidAmount_withdraw \/ e = InsufficientFunds
  end.
Proof.
  destruct a as [b|s|c|f];
    unfold withdraw, on_fst, FixedDepositAccount_withdraw;
    try (destruct (unlock_date f) as [u|e'] eqn:Hu;
         [destruct (now <? u); simpl; [intros [= <-]; auto|]
         |simpl; intros [= <-]; left; exact (unlock_date_Raise _ _ Hu)]);
    rewrite ?BankAccount_withdraw_cases, ?CurrentAccount_withdraw_cases;
    (destruct (amount <=? 0)%float; simpl; [intros [= <-]; auto|]);
    match goal with
    | |- context [(?x <? amount)%float] =>
        destruct (x <? amount)%float; simpl;
        [intros [= <-]; auto|discriminate]
    end.
Qed.

(** X5: the errors of the account methods.  [deposit] raises nothing but
    InvalidAmount.  [withdraw] raises InvalidAmount or InsufficientFunds on a
    BankAccount or SavingsAccount; InvalidAmount or OverdraftExceeded, never
    InsufficientFunds, on a CurrentAccount; OverflowError (the unlock date
    is not a [datetime]), LockPeriodActive, InvalidAmount or
    InsufficientFunds on a FixedDepositAccount.  OverflowError is raised by
    a FixedDepositAccount only, and exactly when its unlock date is not a
    [datetime]. *)
Theorem account_methods_raise_only (now : Z) (a : account) (amount : float)
    (e : exn) :
  (snd (deposit a amount) = Raise e -> e = InvalidAmount_deposit) /\
  (snd (withdraw now a amount) = Raise e ->
     match a with
     | Basic _ | Savings _ =>
         e = InvalidAmount_withdraw \/ e = InsufficientFunds
     | Current _ =>
         (e = InvalidAmount_withdraw \/ e = OverdraftExceeded)
         /\ e <> InsufficientFunds
     | Fixed _ =>
         e = OverflowError \/ e = LockPeriodActive
         \/ e = InvalidAmount_withdraw \/ e = InsufficientFunds
     end) /\
  (snd (withdraw now a amount) = Raise OverflowError <->
     exists f, a = Fixed f /\ forall u, unlock_date f <> Return u).
Proof.
  split; [apply deposit_raises|]. split.
  - intros H. apply withdraw_raises in H.
    destruct a; try exact H.
    split; [exact H|]. destruct H as [->| ->]; discriminate.
  - split.
    + intros H. pose proof (withdraw_raises _ _ _ _ H) as Hk.
      destruct a as [b|s|c|f];
        try (destruct Hk as [Hk|Hk]; discriminate Hk).
      exists f. split; [reflexivity|]. intros u Hu.
      unfold withdraw, on_fst, FixedDepositAccount_withdraw in H.
      rewrite Hu in H. destruct (now <? u); [discriminate H|].
      rewrite BankAccount_withdraw_cases in H.
      destruct (amount <=? 0)%float; [discriminate H|].
      destruct (_ <? amount)%float; discriminate H.
    + intros (f & -> & Hnone). unfold withdraw, on_fst.
      destruct (unlock_date f) as [u|e'] eqn:Hu; [now destruct (Hnone u)|].
      rewrite (unlock_date_Raise _ _ Hu) in Hu.
      now rewrite (FixedDepositAccount_withdraw_overflow _ _ _ _ Hu).
Qed.

(** The demo's current account refuses 701 for its overdraft limit. *)
Lemma account_methods_raise_only_witness :
  ((OverdraftExceeded = InvalidAmount_withdraw
    \/ OverdraftExceeded = OverdraftExceeded)
   /\ OverdraftExceeded <> InsufficientFunds) /\
  exists f, Fixed far_fixed = Fixed f /\ forall u, unlock_date f <> Return u.
Proof.
  split.
  - apply (proj1 (proj2 (account_methods_raise_only 0 (Current current) 701
                           OverdraftExceeded))).
    reflexivity.
  - apply (proj1 (proj2 (proj2 (account_methods_raise_only
                                  0 (Fixed far_fixed) 1000 OverflowError)))).
    reflexivity.
Defined.

(** X6: the errors of [transfer_funds].  Whatever it raises is
    AccountNotFound or one of the five errors of the source's [withdraw]
    (InvalidAmount, InsufficientFunds, OverdraftExceeded, LockPeriodActive,
    OverflowError); in particular it never raises the InvalidAmount of
    [deposit] ("Deposit amount must be positive."). *)
Theorem transfer_funds_raises_only (now : Z) (self : Bank) (from to : string)
    (amount : float) (e : exn) :
  snd (transfer_funds now self from to amount) = Raise e ->
  (e = AccountNotFound \/ e = InvalidAmount_withdraw \/ e = InsufficientFunds
   \/ e = OverdraftExceeded \/ e = LockPeriodActive \/ e = OverflowError)
  /\ e <> InvalidAmount_deposit.
Proof.
  intros H.
  assert (Hin : e = AccountNotFound \/ e = InvalidAmount_withdraw
                \/ e = InsufficientFunds \/ e = OverdraftExceeded
                \/ e = LockPeriodActive \/ e = OverflowError).
  { destruct (get_account self from) as [A|] eqn:HA;
      [destruct (get_account self to) as [B|] eqn:HB|].
    - destruct (transfer_funds_outcome now self from to amount A B HA HB)
        as [(e' & Hw & Ht)|(_ & _ & Ht)]; rewrite Ht in H;
        [|discriminate H].
      injection H as ->.
      pose proof (withdraw_raises now A amount e) as Hk.
      rewrite Hw in Hk. specialize (Hk eq_refl).
      destruct A; intuition.
    - rewrite (transfer_funds_not_found_aux now self from to amount) in H
        by (right; exact HB).
      injection H as <-. now left.
    - rewrite (transfer_funds_not_found_aux now self from to amount) in H
        by (left; exact HA).
      injection H as <-. now left. }
  split; [exact Hin|].
  destruct Hin as [->|[->|[->|[->|[->| ->]]]]]; discriminate.
Qed.

Lemma transfer_funds_raises_only_witness :
  LockPeriodActive <> InvalidAmount_deposit.
Proof.
  apply (transfer_funds_raises_only 0 (my_bank 0) "F1001" "S1001" 1000
                                    LockPeriodActive).
  reflexivity.
Defined.

(** ** Amounts and balances that are not numbers *)

Lemma deposit_NaN (a : account) (amount : float) :
  is_nan amount = true -> deposit a amount = (credited a amount, Return tt).
Proof.
  intros H. rewrite deposit_cases. now rewrite (float_nan_le amount 0 H).
Qed.

(** [withdraw] when neither test on the amount fires. *)
Lemma withdraw_passes (now : Z) (a : account) (amount : float) :
  unlocked now a ->
  (amount <=? 0)%float = false ->
  (match a with
   | Current c => balance (current_base c) + overdraft_limit c
   | _ => balance (base a)
   end <? amount)%float = false ->
  withdraw now a amount = (debited a amount, Return tt).
Proof.
  intros Hu Hpos Hlt.
  destruct a as [b|[b r]|[b l]|[b d c]]; simpl in Hlt;
    unfold withdraw, debited, on_fst.
  - now rewrite BankAccount_withdraw_cases, Hpos, Hlt.
  - simpl. now rewrite BankAccount_withdraw_cases, Hpos, Hlt.
  - rewrite CurrentAccount_withdraw_cases. simpl. now rewrite Hpos, Hlt.
  - destruct (Hu _ eq_refl) as (u & Hud & Hle).
    rewrite (FixedDepositAccount_withdraw_unlocked _ _ _ u Hud Hle).
    rewrite BankAccount_withdraw_cases. unfold on_fst. simpl.
    now rewrite Hpos, Hlt.
Qed.

(** X7: the test [amount <= 0] rejects the numbers that are not positive and
    nothing else.  [deposit] returns normally exactly when the amount is a
    positive number or a NaN.  With a NaN amount, [deposit] on any account,
    and [withdraw] on any account other than a fixed deposit and on a fixed
    deposit whose unlock date is a [datetime] not later than the time of the
    call, return normally and leave a NaN balance. *)
Theorem nan_amount_is_accepted (now : Z) (a : account) (amount : float) :
  (snd (deposit a amount) = Return tt <->
     (0 <? amount)%float = true \/ is_nan amount = true) /\
  (is_nan amount = true ->
     is_nan (balance (base (fst (deposit a amount)))) = true /\
     (unlocked now a ->
        snd (withdraw now a amount) = Return tt /\
        is_nan (balance (base (fst (withdraw now a amount)))) = true)).
Proof.
  split.
  - rewrite deposit_cases. split.
    + destruct (amount <=? 0)%float eqn:E; simpl; [discriminate|].
      intros _. destruct (is_nan amount) eqn:En; [now right|left].
      destruct (float_sign_total amount En); congruence.
    + intros [H|H].
      * now rewrite (float_lt_not_le _ _ H).
      * now rewrite (float_nan_le amount 0 H).
  - intros H. split.
    + rewrite (deposit_NaN a amount H). simpl. rewrite balance_credited.
      now apply float_add_nan_r.
    + intros Hu.
      rewrite (withdraw_passes now a amount Hu (float_nan_le amount 0 H))
        by (now apply float_lt_nan).
      simpl. split; [reflexivity|]. rewrite balance_debited.
      now apply float_sub_nan_r.
Qed.

(** A NaN deposited on the demo's savings account is accepted, and a NaN is
    paid out of the demo's fixed deposit 30 days after its creation. *)
Lemma nan_amount_is_accepted_witness :
  is_nan (balance (base (fst (deposit (Savings savings) nan)))) = true /\
  snd (withdraw 0 (Savings savings) nan) = Return tt /\
  snd (withdraw 2592000000000 (Fixed (fixed 0)) nan) = Return tt.
Proof.
  destruct (proj2 (nan_amount_is_accepted 0 (Savings savings) nan))
    as (Hd & Hw); [reflexivity|].
  split; [exact Hd|]. split.
  - apply Hw. intros f Hf. discriminate Hf.
  - apply (proj2 (nan_amount_is_accepted 2592000000000 (Fixed (fixed 0)) nan)
             eq_refl).
    intros f [= <-]. exists 2592000000000. split; [reflexivity|lia].
Defined.

(** X8: a NaN balance switches the funds check off.  On an account whose
    balance is a NaN, other than a fixed deposit or a fixed deposit whose
    unlock date is a [datetime] not later than the time of the call,
    [withdraw] returns normally for every amount that is not [<= 0], however
    large, and the balance remains a NaN; [deposit], on any account with a
    NaN balance, leaves it a NaN as well. *)
Theorem nan_balance_never_insufficient (now : Z) (a : account)
    (amount : float) :
  is_nan (balance (base a)) = true ->
  is_nan (balance (base (fst (deposit a amount)))) = true /\
  (unlocked now a -> (amount <=? 0)%float = false ->
     snd (withdraw now a amount) = Return tt /\
     is_nan (balance (base (fst (withdraw now a amount)))) = true).
Proof.
  intros H. split.
  - rewrite deposit_cases. destruct (amount <=? 0)%float; simpl; [exact H|].
    rewrite balance_credited. now apply float_add_nan_l.
  - intros Hu Hpos.
    rewrite (withdraw_passes now a amount Hu Hpos).
    + simpl. split; [reflexivity|]. rewrite balance_debited.
      apply is_nan_Prim2SF in H. apply is_nan_Prim2SF.
      now rewrite sub_spec, H.
    + destruct a as [b|s|c|f]; simpl in *; apply float_nan_lt; trivial.
      now apply float_add_nan_l.
Qed.

(** From an account whose balance is a NaN, [1e300] is paid out. *)
Lemma nan_balance_never_insufficient_witness :
  snd (withdraw 0 poisoned 1e300) = Return tt.
Proof.
  destruct (nan_balance_never_insufficient 0 poisoned 1e300) as [_ H].
  - reflexivity.
  - apply H; [intros f Hf; discriminate Hf | reflexivity].
Defined.

(** ** Balances that stay non-negative *)

Lemma no_overdraft_with_base (a : account) (b : BankAccount) :
  no_overdraft (with_base a b) = no_overdraft a.
Proof. now destruct a. Qed.

(** [withdraw] on an account without overdraft facility: it raises and
    changes nothing, or neither test fired and the balance is debited. *)
Lemma withdraw_no_overdraft_cases (now : Z) (a : account) (amount : float) :
  no_overdraft a = true ->
  (exists e, withdraw now a amount = (a, Raise e)) \/
  (withdraw now a amount = (debited a amount, Return tt)
   /\ (amount <=? 0)%float = false
   /\ (balance (base a) <? amount)%float = false).
Proof.
  intros Hc.
  destruct a as [b|[b r]|[b l]|[b d c]]; try discriminate Hc;
    unfold withdraw, debited, on_fst, FixedDepositAccount_withdraw;
    try (destruct (unlock_date _) as [u|e];
         [destruct (now <? u); [left; eauto|] | left; eauto]);
    rewrite ?BankAccount_withdraw_cases; simpl;
    (destruct (amount <=? 0)%float; [left; eauto|]);
    match goal with
    | |- context [(?x <? amount)%float] =>
        destruct (x <? amount)%float; [left; eauto|]
    end;
    right; repeat split.
Qed.

Lemma debited_nonneg (a : account) (amount : float) :
  is_finite amount = true ->
  (0 <=? balance (base a))%float = true ->
  (amount <=? 0)%float = false ->
  (balance (base a) <? amount)%float = false ->
  (0 <=? balance (base (debited a amount)))%float = true.
Proof.
  intros Hfin Hb Hpos Hlt. rewrite balance_debited.
  pose proof (is_finite_not_nan _ Hfin) as Hn.
  apply float_sub_nonneg; trivial.
  - destruct (float_sign_total amount Hn); congruence.
  - apply float_not_lt_le; trivial. now apply float_nonneg_not_nan.
Qed.

Lemma credited_nonneg (a : account) (amount : float) :
  is_finite amount = true ->
  (0 <=? balance (base a))%float = true ->
  (amount <=? 0)%float = false ->
  (0 <=? balance (base (credited a amount)))%float = true.
Proof.
  intros Hfin Hb Hpos. rewrite balance_credited.
  pose proof (is_finite_not_nan _ Hfin) as Hn.
  apply float_add_nonneg; trivial. apply float_pos_nonneg.
  destruct (float_sign_total amount Hn); congruence.
Qed.

(** X9: rounding never overdraws an account.  When the amount is a finite
    number, a balance that is not negative is still not negative after
    [deposit(amount)], on any account, and after [withdraw(amount)], on any
    account but a CurrentAccount, whether the call returns or raises and
    however the float result is rounded. *)
Theorem balance_stays_nonnegative (now : Z) (a : account) (amount : float) :
  is_finite amount = true ->
  (0 <=? balance (base a))%float = true ->
  (0 <=? balance (base (fst (deposit a amount))))%float = true /\
  (no_overdraft a = true ->
     (0 <=? balance (base (fst (withdraw now a amount))))%float = true).
Proof.
  intros Hfin Hb. split.
  - rewrite deposit_cases. destruct (amount <=? 0)%float eqn:E; simpl;
      [exact Hb|]. now apply credited_nonneg.
  - intros Hc.
    destruct (withdraw_no_overdraft_cases now a amount Hc)
      as [[e ->]|(-> & Hpos & Hlt)]; simpl; [exact Hb|].
    now apply debited_nonneg.
Qed.

(** All of the demo's savings balance withdrawn, and 300 deposited on its
    fixed deposit. *)
Lemma balance_stays_nonnegative_witness :
  (0 <=? balance (base (fst (withdraw 0 (Savings savings) 1000))))%float
    = true /\
  (0 <=? balance (base (fst (deposit (Fixed (fixed 0)) 300))))%float = true.
Proof.
  split.
  - apply (proj2 (balance_stays_nonnegative 0 (Savings savings) 1000
                    eq_refl eq_refl)).
    reflexivity.
  - apply (proj1 (balance_stays_nonnegative 0 (Fixed (fixed 0)) 300
                    eq_refl eq_refl)).
Defined.

(** X10: [apply_interest] with a rate that is not negative never makes a
    balance negative: for a finite balance above zero and a rate [>= 0]
    (which the constructor does not check), the balance after the call is
    not negative. *)
Theorem apply_interest_stays_nonnegative (self : SavingsAccount) :
  is_finite (balance (savings_base self)) = true ->
  (0 <? balance (savings_base self))%float = true ->
  (0 <=? interest_rate self)%float = true ->
  (0 <=? balance (savings_base (fst (SavingsAccount_apply_interest self))))
     %float = true.
Proof.
  intros Hfin Hpos Hrate. simpl.
  apply float_add_nonneg; [now apply float_pos_nonneg|].
  rewrite float_nonneg_SF, mul_spec, div_spec.
  assert (H100 : exists m e, Prim2SF 100 = S754_finite false m e)
    by (vm_compute; eauto).
  destruct H100 as (m & e & ->).
  destruct (float_pos_SF _ Hpos) as [Hn Hz].
  destruct (is_finite_SF _ Hfin) as [Hnan Hinf].
  apply SFmul_nonneg; trivial.
  apply SFdiv_nonneg. now rewrite <- float_nonneg_SF.
Qed.

(** The demo's savings account at 3.5 percent. *)
Lemma apply_interest_stays_nonnegative_witness :
  (0 <=? balance (savings_base
                    (fst (SavingsAccount_apply_interest savings))))
     %float = true.
Proof.
  apply (apply_interest_stays_nonnegative savings); reflexivity.
Defined.

Lemma no_overdraft_debited (a : account) (amount : float) :
  no_overdraft (debited a amount) = no_overdraft a.
Proof. apply no_overdraft_with_base. Qed.

Lemma no_overdraft_credited (a : account) (amount : float) :
  no_overdraft (credited a amount) = no_overdraft a.
Proof. apply no_overdraft_with_base. Qed.

(** X11: [transfer_funds] keeps a bank free of negative balances.  If no
    account without overdraft facility has a negative balance, then after
    [transfer_funds] with a finite amount, between any two numbers and
    whatever the outcome, none has: only a CurrentAccount can be in the
    red. *)
Theorem transfer_funds_keeps_balances_nonnegative (now : Z) (self : Bank)
    (from to : string) (amount : float) :
  is_finite amount = true ->
  no_negative_balance self ->
  no_negative_balance (fst (transfer_funds now self from to amount)).
Proof.
  intros Hfin Hinv.
  destruct (get_account self from) as [A|] eqn:HA;
    [destruct (get_account self to) as [B|] eqn:HB|].
  - destruct (transfer_funds_outcome now self from to amount A B HA HB)
      as [(e & _ & ->)|(Hw & Hpos & ->)]; [exact Hinv|]. simpl.
    assert (HA' : no_overdraft A = true ->
                  (0 <=? balance (base (debited A amount)))%float = true).
    { intros Hc.
      destruct (withdraw_no_overdraft_cases now A amount Hc)
        as [[e He]|(_ & _ & Hlt)]; [rewrite He in Hw; discriminate Hw|].
      apply debited_nonneg; trivial. now apply (Hinv from). }
    intros k a. rewrite !get_account_store.
    destruct (decide (to = k)) as [<-|Hto].
    + intros [= <-]. rewrite no_overdraft_credited. intros Hc.
      apply credited_nonneg; trivial.
      destruct (decide (to = from)) as [->|Hne].
      * apply HA'. now rewrite no_overdraft_debited in Hc.
      * now apply (Hinv to).
    + destruct (decide (from = k)) as [<-|Hfrom]; [|apply Hinv].
      intros [= <-]. now rewrite no_overdraft_debited.
  - now rewrite (transfer_funds_not_found_aux now self from to amount)
      by (right; exact HB).
  - now rewrite (transfer_funds_not_found_aux now self from to amount)
      by (left; exact HA).
Qed.

Lemma my_bank_no_negative_balance : no_negative_balance (my_bank 0).
Proof.
  intros k a. unfold my_bank. rewrite add_accounts_lookup.
  unfold get_account at 1. simpl accounts. rewrite lookup_empty. simpl.
  repeat (destruct (has_number k _); [intros [= <-]; intros _; reflexivity|]).
  discriminate.
Qed.

(** The demo's bank after a transfer of all the savings. *)
Lemma transfer_funds_keeps_balances_nonnegative_witness :
  no_negative_balance
    (fst (transfer_funds 0 (my_bank 0) "S1001" "C1001" 1000)).
Proof.
  apply (transfer_funds_keeps_balances_nonnegative 0 (my_bank 0)
           "S1001" "C1001" 1000 eq_refl my_bank_no_negative_balance).
Defined.

(** ** The lock of a fixed deposit *)

Lemma datetime_max_value : datetime_max = 315537897599999999.
Proof. reflexivity. Qed.

Lemma unlock_date_init (now : Z) (number holder : string) (days : Z)
    (b : option float) (u : Z) :
  unlock_date (FixedDepositAccount_init now number holder days b) = Return u
  <->
  Z.abs days <= 999999999
  /\ 0 <= now + days * 86400000000 <= datetime_max
  /\ u = now + days * 86400000000.
Proof. apply unlock_date_Return. Qed.

(** X12: the lock window of a fixed deposit.  Let an account be created at
    the instant [now] with a lock period of [days] days.  When [days > 0]
    and [now + days] is still a [datetime], a withdrawal at the creation
    instant is refused with LockPeriodActive.  When [now + days] falls
    outside the range of [datetime], every withdrawal, at any time, raises
    OverflowError and leaves the account as it was.  With [days <= 0] no
    withdrawal made at or after the creation is refused with
    LockPeriodActive.  And once the lock of any fixed deposit has expired,
    what a withdrawal does no longer depends on the time of the call. *)
Theorem fixed_deposit_lock_window (now : Z) (number holder : string)
    (days : Z) (b : option float) (amount : float) :
  0 <= now <= datetime_max ->
  (0 < days -> now + days * 86400000000 <= datetime_max ->
     FixedDepositAccount_withdraw now
       (FixedDepositAccount_init now number holder days b) amount
     = (FixedDepositAccount_init now number holder days b,
        Raise LockPeriodActive)) /\
  (now + days * 86400000000 < 0 \/ datetime_max < now + days * 86400000000 ->
   forall t,
     FixedDepositAccount_withdraw t
       (FixedDepositAccount_init now number holder days b) amount
     = (FixedDepositAccount_init now number holder days b,
        Raise OverflowError)) /\
  (days <= 0 -> forall t, now <= t ->
     snd (FixedDepositAccount_withdraw t
            (FixedDepositAccount_init now number holder days b) amount)
       <> Raise LockPeriodActive) /\
  (forall (self : FixedDepositAccount) (u t t' : Z),
     unlock_date self = Return u -> u <= t -> t <= t' ->
     FixedDepositAccount_withdraw t' self amount
       = FixedDepositAccount_withdraw t self amount).
Proof.
  intros Hnow. pose proof datetime_max_value as Hmaxv.
  split; [|split; [|split]].
  - intros Hd Hmax.
    apply (FixedDepositAccount_withdraw_locked _ _ _
             (now + days * 86400000000)); [|lia].
    apply unlock_date_init. lia.
  - intros Hout t.
    destruct (unlock_date (FixedDepositAccount_init now number holder days b))
      as [u|e] eqn:Hu.
    + apply unlock_date_init in Hu. lia.
    + rewrite (unlock_date_Raise _ _ Hu) in Hu.
      now apply FixedDepositAccount_withdraw_overflow.
  - intros Hd t Ht.
    destruct (unlock_date (FixedDepositAccount_init now number holder days b))
      as [u|e] eqn:Hu.
    + pose proof (proj1 (unlock_date_init _ _ _ _ _ _) Hu) as Hr.
      rewrite (FixedDepositAccount_withdraw_unlocked _ _ _ u Hu) by lia.
      unfold on_fst. simpl snd. rewrite BankAccount_withdraw_cases.
      destruct (amount <=? 0)%float; [discriminate|].
      destruct (_ <? amount)%float; discriminate.
    + rewrite (FixedDepositAccount_withdraw_overflow _ _ _ _ Hu).
      rewrite (unlock_date_Raise _ _ Hu). discriminate.
  - intros self u t t' Hu Ht Htt'.
    now rewrite !(FixedDepositAccount_withdraw_unlocked _ _ _ u Hu) by lia.
Qed.

(** A deposit locked for 30 days refuses a withdrawal at its creation; one
    locked for 4 000 000 days from 1 January 2024 raises OverflowError; and
    what the demo's deposit does 30 days after its creation it also does 31
    days after. *)
Lemma fixed_deposit_lock_window_witness :
  FixedDepositAccount_withdraw 0
    (FixedDepositAccount_init 0 "F1001" "Charlie" 30 (Some 5000%float)) 1000
  = (FixedDepositAccount_init 0 "F1001" "Charlie" 30 (Some 5000%float),
     Raise LockPeriodActive) /\
  FixedDepositAccount_withdraw 63839664000000000
    (FixedDepositAccount_init 63839664000000000 "F2" "Pia" 4000000
                              (Some 5000%float)) 1000
  = (FixedDepositAccount_init 63839664000000000 "F2" "Pia" 4000000
                              (Some 5000%float),
     Raise OverflowError) /\
  FixedDepositAccount_withdraw 2678400000000 (fixed 0) 1000
  = FixedDepositAccount_withdraw 2592000000000 (fixed 0) 1000.
Proof.
  split; [|split].
  - apply (proj1 (fixed_deposit_lock_window 0 "F1001" "Charlie" 30
                    (Some 5000%float) 1000
                    ltac:(rewrite datetime_max_value; lia)));
      [reflexivity | rewrite datetime_max_value; lia].
  - apply (proj1 (proj2 (fixed_deposit_lock_window 63839664000000000 "F2"
                           "Pia" 4000000 (Some 5000%float) 1000
                           ltac:(rewrite datetime_max_value; lia)))).
    right. rewrite datetime_max_value. lia.
  - apply (proj2 (proj2 (proj2 (fixed_deposit_lock_window 0 "F1001" "Charlie"
                                  30 (Some 5000%float) 1000
                                  ltac:(rewrite datetime_max_value; lia))))
             (fixed 0) 2592000000000).
    + reflexivity.
    + lia.
    + lia.
Defined.

(** ** An account opened without a balance *)

(** X13: an account opened without a [balance] argument starts at [0.0].
    It refuses the withdrawal of every number, with InvalidAmount when the
    amount is [<= 0] and with InsufficientFunds otherwise, and its first
    deposit of a positive amount leaves exactly that amount as balance, with
    no rounding. *)
Theorem account_opened_without_balance (number holder : string)
    (amount : float) :
  balance (BankAccount_init number holder None) = 0%float /\
  (is_nan amount = false ->
     ((amount <=? 0)%float = true /\
      BankAccount_withdraw (BankAccount_init number holder None) amount
        = (BankAccount_init number holder None, Raise InvalidAmount_withdraw))
     \/
     ((0 <? amount)%float = true /\
      BankAccount_withdraw (BankAccount_init number holder None) amount
        = (BankAccount_init number holder None, Raise InsufficientFunds)))
  /\
  ((0 <? amount)%float = true ->
     BankAccount_deposit (BankAccount_init number holder None) amount
       = (BankAccount_init number holder (Some amount), Return tt)).
Proof.
  split; [reflexivity|]. split.
  - intros Hn. rewrite BankAccount_withdraw_cases. simpl balance.
    destruct (float_sign_total amount Hn) as [H|H].
    + left. split; [exact H|]. now rewrite H.
    + right. split; [exact H|]. now rewrite (float_lt_not_le _ _ H), H.
  - intros H. unfold BankAccount_deposit.
    rewrite (float_lt_not_le _ _ H). unfold set_balance. simpl.
    now rewrite (float_zero_add amount H).
Qed.

Lemma account_opened_without_balance_witness :
  BankAccount_deposit (BankAccount_init "B3" "Mona" None) 0.1
    = (BankAccount_init "B3" "Mona" (Some 0.1%float), Return tt).
Proof.
  apply (proj2 (proj2 (account_opened_without_balance "B3" "Mona" 0.1))).
  reflexivity.
Defined.

(** ** A rate of zero *)

Lemma float_zero_SF (r : float) :
  (r =? 0)%float = true -> exists s, Prim2SF r = S754_zero s.
Proof.
  rewrite FloatAxioms.eqb_spec. change (Prim2SF 0) with (S754_zero false).
  unfold SFeqb.
  destruct (Prim2SF r) as [s|[]| |[] m e]; try discriminate. eauto.
Qed.

Lemma float_finite_nonzero_SF (b : float) :
  is_finite b = true -> (b =? 0)%float = false ->
  exists s m e, Prim2SF b = S754_finite s m e.
Proof.
  intros Hfin. destruct (is_finite_SF b Hfin) as [Hn Hi].
  rewrite FloatAxioms.eqb_spec. change (Prim2SF 0) with (S754_zero false).
  unfold SFeqb.
  destruct (Prim2SF b) as [s|s| |s m e]; try discriminate; eauto.
  - now destruct (Hi s).
  - congruence.
Qed.

(** X14: at a rate of zero [apply_interest] changes nothing: for a finite
    balance other than zero and a rate equal to [0], the account after the
    call is the account before it, with no rounding residue. *)
Theorem apply_interest_zero_rate (self : SavingsAccount) :
  is_finite (balance (savings_base self)) = true ->
  (balance (savings_base self) =? 0)%float = false ->
  (interest_rate self =? 0)%float = true ->
  SavingsAccount_apply_interest self = (self, Return tt).
Proof.
  intros Hfin Hnz Hr. unfold SavingsAccount_apply_interest.
  assert (E : (balance (savings_base self)
               + balance (savings_base self) * (interest_rate self / 100))
              %float = balance (savings_base self)).
  { apply Prim2SF_inj. rewrite add_spec, mul_spec, div_spec.
    destruct (float_zero_SF _ Hr) as [sr ->].
    destruct (float_finite_nonzero_SF _ Hfin Hnz) as (s & m & e & ->).
    assert (H100 : exists m e, Prim2SF 100 = S754_finite false m e)
      by (vm_compute; eauto).
    destruct H100 as (m' & e' & ->). reflexivity. }
  rewrite E. destruct self as [[n h b] r]. reflexivity.
Qed.

(** A savings account of 200 at a rate of zero. *)
Lemma apply_interest_zero_rate_witness :
  SavingsAccount_apply_interest
    (SavingsAccount_init "S3" "Nora" 0 (Some 200%float))
  = (SavingsAccount_init "S3" "Nora" 0 (Some 200%float), Return tt).
Proof.
  apply (apply_interest_zero_rate
           (SavingsAccount_init "S3" "Nora" 0 (Some 200%float)));
    reflexivity.
Defined.

(** ** A current account opened without a balance *)

Lemma float_zero_sub (a : float) :
  (0 <? a)%float = true -> (0 - a)%float = (- a)%float.
Proof.
  intros H. apply Prim2SF_inj. rewrite sub_spec, opp_spec.
  change (Prim2SF 0) with (S754_zero false).
  apply float_pos_SF in H as [Hn Hz].
  destruct (Prim2SF a) as [s|[]| |[] m e]; try discriminate Hn;
    try reflexivity.
  exfalso. now apply (Hz s).
Qed.

(** X15: a current account opened without a [balance] argument and with an
    overdraft limit above zero pays out exactly up to its limit: for
    [0 < amount <= overdraft_limit], [withdraw(amount)] returns normally and
    the balance becomes exactly [-amount]; for [amount > overdraft_limit] it
    raises OverdraftExceeded.  From a balance of [0.0] neither the sum the
    amount is compared with nor the new balance is rounded. *)
Theorem current_account_opened_without_balance (number holder : string)
    (limit amount : float) :
  (0 <? limit)%float = true ->
  (0 <? amount)%float = true ->
  ((amount <=? limit)%float = true ->
     snd (CurrentAccount_withdraw
            (CurrentAccount_init number holder limit None) amount)
       = Return tt /\
     balance (current_base
                (fst (CurrentAccount_withdraw
                        (CurrentAccount_init number holder limit None)
                        amount)))
       = (- amount)%float) /\
  ((limit <? amount)%float = true ->
     CurrentAccount_withdraw
       (CurrentAccount_init number holder limit None) amount
     = (CurrentAccount_init number holder limit None,
        Raise OverdraftExceeded)).
Proof.
  intros Hl Ha. rewrite CurrentAccount_withdraw_cases. simpl.
  rewrite (float_lt_not_le _ _ Ha), (float_zero_add limit Hl). split.
  - intros Hle. rewrite (float_le_not_lt _ _ Hle). simpl.
    split; [reflexivity|]. now apply float_zero_sub.
  - intros Hgt. now rewrite Hgt.
Qed.

(** With a limit of 500: 500 is paid and leaves -500, 500.01 is refused. *)
Lemma current_account_opened_without_balance_witness :
  balance (current_base
             (fst (CurrentAccount_withdraw
                     (CurrentAccount_init "C3" "Omar" 500 None) 500)))
    = (-500)%float /\
  CurrentAccount_withdraw (CurrentAccount_init "C3" "Omar" 500 None) 500.01
    = (CurrentAccount_init "C3" "Omar" 500 None, Raise OverdraftExceeded).
Proof.
  split.
  - apply (proj1 (current_account_opened_without_balance
                    "C3" "Omar" 500 500 eq_refl eq_refl)).
    reflexivity.
  - apply (proj2 (current_account_opened_without_balance
                    "C3" "Omar" 500 500.01 eq_refl eq_refl)).
    reflexivity.
Defined.
